(** * Sarvam QA dashboard: transcript normalisation, speaker timing,
      audio chunking and the grading response parser.

    A shallow embedding of [sarvam_engine.py] (the root module, class
    [CallAnalytics]) and of [SarvamTest/sarvam_engine.py] (class
    [SarvamEngine]).  Python values are modelled as follows:

    - [str] is [string]; a character is one code point of the Latin-1
      range, so that [str.strip] and the ordering used by [sorted] are the
      ones of Python on that alphabet;
    - [float] is the kernel's binary64 [float], with the operations of
      IEEE 754 that CPython uses;
    - [int] is [Z];
    - a [dict] keeps its keys in insertion order: an association list
      without duplicate keys, updated in place;
    - an exception is an element of [exn] carried by [inl]. *)

From Stdlib Require Import List String Ascii ZArith Lia Bool Arith.
From Stdlib Require Import Permutation Sorted DecimalString DecimalNat.
From Stdlib Require Import OrderedTypeEx.
From Stdlib Require Import Floats.
Import ListNotations.

Set Warnings "-register-all,-inexact-float".

(* ------------------------------------------------------------------ *)
(** ** Python strings *)

Module PyStr.

Open Scope string_scope.

(** [s[n:]] *)
Fixpoint drop (n : nat) (s : string) : string :=
  match n, s with
  | O, _ => s
  | S _, EmptyString => EmptyString
  | S n', String _ s' => drop n' s'
  end.

(** [s.startswith(p)] *)
Definition startswith (s p : string) : bool := String.prefix p s.

(** [s.endswith(p)] *)
Definition endswith (s p : string) : bool :=
  (String.length p <=? String.length s)%nat
  && String.eqb (drop (String.length s - String.length p) s) p.

(** [sub in s] *)
Fixpoint contains (sub s : string) : bool :=
  if String.prefix sub s then true
  else match s with
       | EmptyString => false
       | String _ s' => contains sub s'
       end.

(** [s.split(sep)] for a non-empty [sep]: the text is scanned from the
    left, every occurrence of [sep] closes the current piece and the
    scan resumes after it.  [skip] counts the characters of a matched
    separator that remain to be passed over. *)
Fixpoint split_go (sep : string) (skip : nat) (cur : string) (s : string)
  : list string :=
  match s with
  | EmptyString => [cur]
  | String c s' =>
      match skip with
      | S k => split_go sep k cur s'
      | O =>
          if String.prefix sep s
          then cur :: split_go sep (String.length sep - 1) "" s'
          else split_go sep 0 (cur ++ String c "") s'
      end
  end.

Definition split (sep s : string) : list string := split_go sep 0 "" s.

(** [c.isspace()] on the Latin-1 range: TAB..CR, FS..US, space, NEL and
    the no-break space. *)
Definition isspace (c : ascii) : bool :=
  let n := nat_of_ascii c in
  ((9 <=? n) && (n <=? 13) || (28 <=? n) && (n <=? 32)
   || (n =? 133) || (n =? 160))%nat.

Fixpoint lstrip (s : string) : string :=
  match s with
  | EmptyString => EmptyString
  | String c s' => if isspace c then lstrip s' else s
  end.

Fixpoint rstrip (s : string) : string :=
  match s with
  | EmptyString => EmptyString
  | String c s' =>
      match rstrip s' with
      | EmptyString => if isspace c then EmptyString else String c EmptyString
      | r => String c r
      end
  end.

(** [s.strip()] *)
Definition strip (s : string) : string := rstrip (lstrip s).

(** [sep.join(l)] *)
Definition join (sep : string) (l : list string) : string :=
  String.concat sep l.

(** [s.rfind(c)] for a single character, as the index after the last
    occurrence ([0] when there is none): [s.rfind(c) + 1]. *)
Fixpoint rfind_succ (c : ascii) (s : string) : nat :=
  match s with
  | EmptyString => 0
  | String a s' =>
      match rfind_succ c s' with
      | O => if Ascii.eqb a c then 1 else 0
      | S i => S (S i)
      end
  end.

(** [s[:n]] *)
Fixpoint take (n : nat) (s : string) : string :=
  match n, s with
  | O, _ => EmptyString
  | S _, EmptyString => EmptyString
  | S n', String c s' => String c (take n' s')
  end.

(** [sorted(l)] on strings: the order is the lexicographic order of the
    code points; the sort is stable. *)
Fixpoint insert_sorted (x : string) (l : list string) : list string :=
  match l with
  | [] => [x]
  | y :: l' => if String.leb x y then x :: l else y :: insert_sorted x l'
  end.

Fixpoint sorted (l : list string) : list string :=
  match l with
  | [] => []
  | x :: l' => insert_sorted x (sorted l')
  end.

(** [f"{i:03d}"] for [i >= 0]: the decimal digits, padded on the left
    with zeros up to three characters. *)
Fixpoint zeros (n : nat) : string :=
  match n with
  | O => EmptyString
  | S n' => String "0" (zeros n')
  end.

Definition format_03d (i : nat) : string :=
  let d := NilZero.string_of_uint (Nat.to_uint i) in
  zeros (3 - String.length d) ++ d.

End PyStr.

(* ------------------------------------------------------------------ *)
(** ** Python dictionaries with string keys *)

Module PyDict.

Definition dict (V : Type) : Type := list (string * V).

(** [d.get(k)] *)
Fixpoint get {V} (d : dict V) (k : string) : option V :=
  match d with
  | [] => None
  | (k', v) :: d' => if String.eqb k k' then Some v else get d' k
  end.

(** [d.get(k, dflt)] *)
Definition get_default {V} (d : dict V) (k : string) (dflt : V) : V :=
  match get d k with
  | Some v => v
  | None => dflt
  end.

(** [d[k] = v]: an existing key keeps its position, a new key goes last. *)
Fixpoint set {V} (d : dict V) (k : string) (v : V) : dict V :=
  match d with
  | [] => [(k, v)]
  | (k', v') :: d' =>
      if String.eqb k k' then (k', v) :: d' else (k', v') :: set d' k v
  end.

(** [k in d] *)
Definition mem {V} (d : dict V) (k : string) : bool :=
  match get d k with
  | Some _ => true
  | None => false
  end.

Definition keys {V} (d : dict V) : list string := map fst d.

End PyDict.

(* ------------------------------------------------------------------ *)
(** ** Python floats *)

Module PyFloat.

Open Scope float_scope.

(** [max(a, b)] of two arguments: the first one is kept unless the
    second one is greater. *)
Definition max (a b : float) : float := if a <? b then b else a.


End PyFloat.

(* ------------------------------------------------------------------ *)
(** ** [_parse_transcriptions]

    The function is the same in [CallAnalytics] and [SarvamEngine]. *)

Module Transcripts.

Open Scope string_scope.

(** One element of [diarized_transcript.entries]; a key of the JSON
    object that is absent is [None]. *)
Record entry : Type := Entry {
  speaker_id : option string;
  transcript : option string;
  start_time_seconds : option float;
  end_time_seconds : option float
}.

(** The value under [diarized_transcript]. *)
Record diarized : Type := Diarized {
  entries : option (list entry)
}.

(** A provider result document, as [json.load] returns it.  The
    top-level key [transcript] is [flat_transcript]. *)
Record document : Type := Document {
  diarized_transcript : option diarized;
  flat_transcript : option string
}.

(** The raw output directory: file names (all different) with the
    document each file holds. *)
Definition directory : Type := list (string * document).

Definition listdir (d : directory) : list string := map fst d.

Fixpoint load (d : directory) (fname : string) : option document :=
  match d with
  | [] => None
  | (n, doc) :: d' => if String.eqb fname n then Some doc else load d' fname
  end.

(** [data.get("diarized_transcript", {}).get("entries", [])] *)
Definition doc_entries (data : document) : list entry :=
  match diarized_transcript data with
  | None => []
  | Some dz => match entries dz with
               | None => []
               | Some l => l
               end
  end.

(** The entry appended when [not entries and "transcript" in data]. *)
Definition fallback_entry (text : string) : entry :=
  Entry (Some "SPEAKER_00") (Some text) (Some 0%float) (Some 0%float).

(** What one iteration of the first loop adds to [all_entries]. *)
Definition contribution (data : document) : list entry :=
  let entries := doc_entries data in
  entries ++
  match entries, flat_transcript data with
  | [], Some text => [fallback_entry text]
  | _, _ => []
  end.

(** The first loop: files in [sorted(os.listdir(raw_output_dir))] order,
    those not ending in [.json] skipped. *)
Fixpoint collect (d : directory) (fnames : list string) (all_entries : list entry)
  : list entry :=
  match fnames with
  | [] => all_entries
  | fname :: rest =>
      if negb (PyStr.endswith fname ".json") then collect d rest all_entries
      else match load d fname with
           | None => collect d rest all_entries
           | Some data => collect d rest (all_entries ++ contribution data)
           end
  end.

Definition all_entries_of (d : directory) : list entry :=
  collect d (PyStr.sorted (listdir d)) [].

(** The locals of one iteration of the second loop. *)
Definition speaker_of (e : entry) : string :=
  match speaker_id e with Some s => s | None => "UNKNOWN" end.

Definition text_of (e : entry) : string :=
  PyStr.strip (match transcript e with Some t => t | None => "" end).

Definition start_of (e : entry) : float :=
  match start_time_seconds e with Some x => x | None => 0%float end.

Definition end_of (e : entry) : float :=
  match end_time_seconds e with Some x => x | None => 0%float end.

Definition duration_of (e : entry) : float :=
  PyFloat.max (end_of e - start_of e)%float 0%float.

Definition line_of (e : entry) : string :=
  speaker_of e ++ ": " ++ text_of e.

(** The state of the second loop. *)
Record acc : Type := Acc {
  conversation_lines : list string;
  speaker_times : PyDict.dict float
}.

Definition step (a : acc) (e : entry) : acc :=
  let speaker := speaker_of e in
  Acc (conversation_lines a ++ [line_of e])
      (PyDict.set (speaker_times a) speaker
         (PyDict.get_default (speaker_times a) speaker 0 + duration_of e)%float).

Definition run (all_entries : list entry) : acc :=
  fold_left step all_entries (Acc [] []).

(** The text written to [_conversation.txt]. *)
Definition serialize (all_entries : list entry) : string :=
  PyStr.join (String "010" "") (conversation_lines (run all_entries))
  ++ String "010" "".

(** The dictionary dumped to [_timing.json]. *)
Definition aggregate (all_entries : list entry) : PyDict.dict float :=
  speaker_times (run all_entries).

(** The two artifacts of [_parse_transcriptions]. *)
Definition parse_transcriptions (d : directory) : string * PyDict.dict float :=
  let all_entries := all_entries_of d in
  (serialize all_entries, aggregate all_entries).

End Transcripts.

(* ------------------------------------------------------------------ *)
(** ** [os.path] (POSIX flavour) *)

Module OsPath.

Open Scope string_scope.

(** [os.path.basename(p)]: what follows the last slash. *)
Definition basename (p : string) : string :=
  PyStr.drop (PyStr.rfind_succ "/" p) p.

Fixpoint all_dots (s : string) : bool :=
  match s with
  | EmptyString => true
  | String c s' => Ascii.eqb c "." && all_dots s'
  end.

(** [os.path.splitext(p)]: the extension starts at the last dot of the
    last path component, unless that component has only dots before it. *)
Definition splitext (p : string) : string * string :=
  let sep1 := PyStr.rfind_succ "/" p in
  let dot1 := PyStr.rfind_succ "." p in
  if (sep1 <? dot1)%nat
     && negb (all_dots (PyStr.take (dot1 - 1 - sep1) (PyStr.drop sep1 p)))
  then (PyStr.take (dot1 - 1) p, PyStr.drop (dot1 - 1) p)
  else (p, "").

(** [os.path.join(a, b)] *)
Definition join (a b : string) : string :=
  if PyStr.startswith b "/" then b
  else if String.eqb a "" || PyStr.endswith a "/" then a ++ b
  else a ++ "/" ++ b.

End OsPath.

(* ------------------------------------------------------------------ *)
(** ** Exceptions *)

Inductive exn : Type :=
| JSONDecodeError
| ValueError (msg : string)
| IndexError
| AttributeError
| ProviderError.

(** Code that may raise: the first exception ends the computation. *)
Definition bind {A B} (m : exn + A) (k : A -> exn + B) : exn + B :=
  match m with
  | inl e => inl e
  | inr a => k a
  end.

Notation "x <- m ;; k" := (bind m (fun x => k))
  (at level 61, m at next level, right associativity).

(** [l[i]] for [i >= 0] *)
Definition index {A} (l : list A) (i : nat) : exn + A :=
  match nth_error l i with
  | Some x => inr x
  | None => inl IndexError
  end.

(* ------------------------------------------------------------------ *)
(** ** [split_audio]

    The function is the same in both modules.  The audio is known by
    its length in milliseconds, [len(audio)]. *)

Module Audio.

Open Scope string_scope.
Open Scope Z_scope.

(** [range(0, stop, step)]; a zero step is a [ValueError]. *)
Definition range0 (stop step : Z) : exn + list Z :=
  if step =? 0 then inl (ValueError "range() arg 3 must not be zero")
  else
    let n := if 0 <? step
             then (if stop <=? 0 then 0 else (stop - 1) / step + 1)
             else (if 0 <=? stop then 0 else (- stop - 1) / (- step) + 1) in
    inr (map (fun i => Z.of_nat i * step) (seq 0 (Z.to_nat n))).

(** [chunk.export(chunk_path)] for [chunk = audio[start:stop]]; the
    slice of an [AudioSegment] is clipped to its length. *)
Record export : Type := Export {
  export_path : string;
  export_start : Z;
  export_stop : Z
}.

Definition slice (len start stop : Z) : Z * Z :=
  (Z.min start len, Z.min stop len).

Definition export_duration (x : export) : Z := export_stop x - export_start x.

(** The returned list with the files written on the way. *)
Record outcome : Type := Outcome {
  chunks : list string;
  written : list export
}.

Definition chunk_name (base_name ext : string) (i : nat) : string :=
  base_name ++ "_chunk" ++ PyStr.format_03d i ++ ext.

(** The body of the [for i, start in enumerate(...)] loop. *)
Fixpoint export_loop (len chunk_duration_ms : Z)
  (output_dir base_name ext : string) (i : nat) (starts : list Z)
  (acc : outcome) : outcome :=
  match starts with
  | [] => acc
  | start :: rest =>
      let '(a, b) := slice len start (start + chunk_duration_ms) in
      let chunk_path := OsPath.join output_dir (chunk_name base_name ext i) in
      export_loop len chunk_duration_ms output_dir base_name ext (S i) rest
        (Outcome (chunks acc ++ [chunk_path])
                 (written acc ++ [Export chunk_path a b]))
  end.

(** [split_audio(audio_path, chunk_duration_ms, output_dir)]; [mkdtemp]
    is the directory [tempfile.mkdtemp] hands out. *)
Definition split_audio (len : Z) (mkdtemp : string) (audio_path : string)
  (chunk_duration_ms : Z) (output_dir : option string) : exn + outcome :=
  if len <=? chunk_duration_ms then inr (Outcome [audio_path] [])
  else
    let output_dir := match output_dir with
                      | None => mkdtemp
                      | Some d => d
                      end in
    let base_name := fst (OsPath.splitext (OsPath.basename audio_path)) in
    let ext := match snd (OsPath.splitext audio_path) with
               | EmptyString => ".wav"
               | e => e
               end in
    match range0 len chunk_duration_ms with
    | inl e => inl e
    | inr starts =>
        inr (export_loop len chunk_duration_ms output_dir base_name ext 0
               starts (Outcome [] []))
    end.

End Audio.

(* ------------------------------------------------------------------ *)
(** ** JSON values and [json.loads] *)

Module Json.

Open Scope string_scope.

(** What [json.loads] returns.  An object is a [dict] (insertion order,
    a repeated key keeps its first position and its last value).  A
    number without fraction and exponent is an [int]; any other number
    is carried by its lexeme, since the grading code passes numbers
    through untouched. *)
Inductive json : Type :=
| JNull
| JBool (b : bool)
| JInt (z : Z)
| JReal (lexeme : string)
| JStr (s : string)
| JList (l : list json)
| JDict (d : list (string * json)).

(** Python's [None]. *)
Definition None_ : json := JNull.

Definition is_ws (c : ascii) : bool :=
  let n := nat_of_ascii c in
  ((n =? 32) || (n =? 9) || (n =? 10) || (n =? 13))%nat.

Fixpoint skip_ws (s : string) : string :=
  match s with
  | EmptyString => EmptyString
  | String c s' => if is_ws c then skip_ws s' else s
  end.

Definition is_digit (c : ascii) : bool :=
  let n := nat_of_ascii c in ((48 <=? n) && (n <=? 57))%nat.

(** The longest run of digits at the head of [s], and what follows. *)
Fixpoint span_digits (s : string) : string * string :=
  match s with
  | EmptyString => (EmptyString, EmptyString)
  | String c s' =>
      if is_digit c
      then let '(d, r) := span_digits s' in (String c d, r)
      else (EmptyString, s)
  end.

Fixpoint digits_value (acc : Z) (d : string) : Z :=
  match d with
  | EmptyString => acc
  | String c d' => digits_value (10 * acc + Z.of_nat (nat_of_ascii c - 48)) d'
  end.

(** The character an escape letter stands for. *)
Definition unescape (c : ascii) : option ascii :=
  match nat_of_ascii c with
  | 34 => Some "034"%char
  | 92 => Some "\"%char
  | 47 => Some "/"%char
  | 98 => Some "008"%char
  | 102 => Some "012"%char
  | 110 => Some "010"%char
  | 114 => Some "013"%char
  | 116 => Some "009"%char
  | _ => None
  end.

(** The body of a string literal, after the opening quote.  A control
    character is refused, as is an escape by code point ([\u]), which
    may name a character outside the model's alphabet. *)
Fixpoint scan_string (s : string) : option (string * string) :=
  match s with
  | EmptyString => None
  | String c s' =>
      if Ascii.eqb c "034" then Some (EmptyString, s')
      else if Ascii.eqb c "\" then
        match s' with
        | EmptyString => None
        | String e s'' =>
            match unescape e, scan_string s'' with
            | Some ch, Some (body, rest) => Some (String ch body, rest)
            | _, _ => None
            end
        end
      else if (nat_of_ascii c <? 32)%nat then None
      else match scan_string s' with
           | Some (body, rest) => Some (String c body, rest)
           | None => None
           end
  end.

(** A number at the head of [s]: an optional minus sign, an integer
    part without a leading zero (or a lone zero), then an optional
    fraction and an optional exponent. *)
Definition scan_number (s : string) : option (json * string) :=
  let '(sign, s1) := match s with
                     | String "-"%char r => ("-", r)
                     | _ => ("", s)
                     end in
  let '(int, s2) := span_digits s1 in
  let int_ok := match int with
                | EmptyString => false
                | String "0"%char (String _ _) => false
                | _ => true
                end in
  if negb int_ok then
    (* "0123" is read as "0" followed by extra data *)
    match int with
    | String "0"%char more => Some (JInt 0, more ++ s2)
    | _ => None
    end
  else
    let '(frac, s3) := match s2 with
                       | String "."%char r =>
                           match span_digits r with
                           | (EmptyString, _) => ("", s2)
                           | (d, r') => ("." ++ d, r')
                           end
                       | _ => ("", s2)
                       end in
    let '(exp, s4) := match s3 with
                      | String e r =>
                          if Ascii.eqb e "e" || Ascii.eqb e "E" then
                            let '(sg, r1) := match r with
                                             | String "+"%char r' => ("+", r')
                                             | String "-"%char r' => ("-", r')
                                             | _ => ("", r)
                                             end in
                            match span_digits r1 with
                            | (EmptyString, _) => ("", s3)
                            | (d, r') => (String e sg ++ d, r')
                            end
                          else ("", s3)
                      | _ => ("", s3)
                      end in
    match frac, exp with
    | EmptyString, EmptyString =>
        let v := digits_value 0 int in
        Some (JInt (if String.eqb sign "-" then (- v)%Z else v), s4)
    | _, _ => Some (JReal (sign ++ int ++ frac ++ exp), s4)
    end.

(** One value at the head of [s] (no leading white space), and what
    follows it; [fuel] bounds the nesting depth and the number of items. *)
Fixpoint scan_value (fuel : nat) (s : string) : option (json * string) :=
  match fuel with
  | O => None
  | S fuel' =>
      match s with
      | String "{"%char r =>
          match skip_ws r with
          | String "}"%char r' => Some (JDict [], r')
          | r1 => scan_members fuel' r1 []
          end
      | String "["%char r =>
          match skip_ws r with
          | String "]"%char r' => Some (JList [], r')
          | r1 => scan_items fuel' r1 []
          end
      | String "034"%char r =>
          match scan_string r with
          | Some (body, rest) => Some (JStr body, rest)
          | None => None
          end
      | _ =>
          if String.prefix "null" s then Some (JNull, PyStr.drop 4 s)
          else if String.prefix "true" s then Some (JBool true, PyStr.drop 4 s)
          else if String.prefix "false" s then Some (JBool false, PyStr.drop 5 s)
          else if String.prefix "NaN" s then Some (JReal "NaN", PyStr.drop 3 s)
          else if String.prefix "Infinity" s
          then Some (JReal "Infinity", PyStr.drop 8 s)
          else if String.prefix "-Infinity" s
          then Some (JReal "-Infinity", PyStr.drop 9 s)
          else scan_number s
      end
  end

with scan_items (fuel : nat) (s : string) (acc : list json)
  : option (json * string) :=
  match fuel with
  | O => None
  | S fuel' =>
      match scan_value fuel' s with
      | None => None
      | Some (v, r) =>
          match skip_ws r with
          | String ","%char r' => scan_items fuel' (skip_ws r') (acc ++ [v])
          | String "]"%char r' => Some (JList (acc ++ [v]), r')
          | _ => None
          end
      end
  end

with scan_members (fuel : nat) (s : string) (acc : list (string * json))
  : option (json * string) :=
  match fuel with
  | O => None
  | S fuel' =>
      match s with
      | String "034"%char r =>
          match scan_string r with
          | None => None
          | Some (key, r1) =>
              match skip_ws r1 with
              | String ":"%char r2 =>
                  match scan_value fuel' (skip_ws r2) with
                  | None => None
                  | Some (v, r3) =>
                      match skip_ws r3 with
                      | String ","%char r4 =>
                          scan_members fuel' (skip_ws r4) (PyDict.set acc key v)
                      | String "}"%char r4 => Some (JDict (PyDict.set acc key v), r4)
                      | _ => None
                      end
                  end
              | _ => None
              end
          end
      | _ => None
      end
  end.

(** [json.loads(s)]; [None] is a [JSONDecodeError].  No document nests
    deeper or lists more items than it has characters. *)
Definition loads (s : string) : option json :=
  match scan_value (S (String.length s)) (skip_ws s) with
  | Some (v, rest) =>
      match skip_ws rest with
      | EmptyString => Some v
      | _ => None
      end
  | None => None
  end.

End Json.


(* ------------------------------------------------------------------ *)
(** ** [SarvamEngine.grade_call] ([SarvamTest/sarvam_engine.py])

    [json_loads] is [json.loads] ([None] when it raises
    [JSONDecodeError]); [completion] is what
    [self.client.chat.completions(...).choices[0].message.content]
    evaluates to.  The call is made with [output_dir=None]. *)

Module SarvamEngine.

Import Json.
Open Scope string_scope.

(** The value under [error]: a message of the code's own, or [str(e)]
    of an exception raised by a library. *)
Inductive error : Type :=
| Message (msg : string)
| StrOf (e : exn).

Definition str (e : exn) : error :=
  match e with
  | ValueError msg => Message msg
  | _ => StrOf e
  end.

(** The returned dictionary: [status] is [success] with the three
    fields, or [failed] with [error]. *)
Inductive grading : Type :=
| Success (grades overall_score summary : json)
| Failed (err : error).

Section WithJson.

Variable json_loads : string -> option json.

Definition loads (s : string) : exn + json :=
  match json_loads s with
  | Some v => inr v
  | None => inl JSONDecodeError
  end.

(** The [try: json.loads(response_text) except json.JSONDecodeError:]
    block. *)
Definition parse_response (response_text : string) : exn + json :=
  match json_loads response_text with
  | Some v => inr v
  | None =>
      if PyStr.contains "```json" response_text then
        a <- index (PyStr.split "```json" response_text) 1 ;;
        b <- index (PyStr.split "```" a) 0 ;;
        loads (PyStr.strip b)
      else if PyStr.contains "```" response_text then
        a <- index (PyStr.split "```" response_text) 1 ;;
        b <- index (PyStr.split "```" a) 0 ;;
        loads (PyStr.strip b)
      else inl (ValueError "Could not parse grading response as JSON")
  end.

(** [grading_result.get(key, dflt)]: only a [dict] has [get]. *)
Definition get (grading_result : json) (key : string) (dflt : json)
  : exn + json :=
  match grading_result with
  | JDict d => inr (PyDict.get_default d key dflt)
  | _ => inl AttributeError
  end.

Definition build_result (grading_result : json) : exn + grading :=
  grades <- get grading_result "grades" (JList []) ;;
  overall_score <- get grading_result "overall_score" (JInt 0) ;;
  summary <- get grading_result "summary" (JStr "") ;;
  inr (Success grades overall_score summary).

Definition grade_call (transcript : string) (scorecard_items : list string)
  (completion : exn + string) : grading :=
  if String.eqb (PyStr.strip transcript) "" then
    Failed (Message "Empty transcript")
  else match scorecard_items with
       | [] => Failed (Message "No scorecard items provided")
       | _ =>
           match (response_text <- completion ;;
                  grading_result <- parse_response response_text ;;
                  build_result grading_result) with
           | inr result => result
           | inl e => Failed (str e)
           end
       end.

End WithJson.

End SarvamEngine.

(* ------------------------------------------------------------------ *)
(** ** [CallAnalytics.grade_call] ([sarvam_engine.py])

    [completion] is the [content] of the reply, or the exception raised
    before it is known (reading the conversation file included). *)

Module CallAnalytics.

Import Json.
Open Scope string_scope.

Section WithJson.

Variable json_loads : string -> option json.

(** "Clean up potential markdown code blocks" *)
Definition clean (content : string) : exn + string :=
  if PyStr.contains "```json" content then
    a <- index (PyStr.split "```json" content) 1 ;;
    index (PyStr.split "```" a) 0
  else if PyStr.contains "```" content then
    index (PyStr.split "```" content) 0
  else inr content.

(** The function returns the parsed value, or [None] from its
    [except Exception] branch. *)
Definition grade_call (completion : exn + string) : json :=
  match (content <- completion ;;
         content <- clean content ;;
         SarvamEngine.loads json_loads (PyStr.strip content)) with
  | inr v => v
  | inl _ => None_
  end.

End WithJson.

End CallAnalytics.

(** A JSON text is written below with apostrophes in place of quotes;
    [dq] puts the quotes back. *)
Fixpoint dq (s : string) : string :=
  match s with
  | EmptyString => EmptyString
  | String c s' => String (if Ascii.eqb c "'" then "034"%char else c) (dq s')
  end.

Definition nl : string := String "010" EmptyString.

(** A reply that wraps its object in a plain fence. *)
Definition plain_fenced_reply : string :=
  ("```" ++ nl ++ dq "{'grades': [], 'overall_score': 4, 'summary': 'fine'}"
  ++ nl ++ "```")%string.

(** A reply that is an object, one of whose strings holds the
    JSON-tagged fence marker. *)
Definition marker_in_string_reply : string :=
  dq "{'summary': 'wrap the answer in ```json'}"%string.

(* ------------------------------------------------------------------ *)
(** ** Vocabulary of the statements *)

Module Vocabulary.

Open Scope string_scope.

(** The text before the first occurrence of [sep] (all of it when there
    is none). *)
Fixpoint before_first (sep s : string) : string :=
  if String.prefix sep s then EmptyString
  else match s with
       | EmptyString => EmptyString
       | String c s' => String c (before_first sep s')
       end.

(** The text after the first occurrence of [sep]. *)
Fixpoint after_first (sep s : string) : option string :=
  if String.prefix sep s then Some (PyStr.drop (String.length sep) s)
  else match s with
       | EmptyString => None
       | String _ s' => after_first sep s'
       end.

(** No backtick in [s]. *)
Fixpoint no_backtick (s : string) : bool :=
  match s with
  | EmptyString => true
  | String c s' => negb (Ascii.eqb c "`") && no_backtick s'
  end.

(** [s] does not begin with a backtick. *)
Definition no_backtick_head (s : string) : bool :=
  match s with
  | EmptyString => true
  | String c _ => negb (Ascii.eqb c "`")
  end.

(** The entries of one speaker, in the order of the record. *)
Definition entries_of (speaker : string) (l : list Transcripts.entry)
  : list Transcripts.entry :=
  filter (fun e => String.eqb (Transcripts.speaker_of e) speaker) l.

(** The total of a speaker, as the second loop accumulates it: the
    durations are added one after the other to [t0]. *)
Definition total_from (t0 : float) (es : list Transcripts.entry) : float :=
  fold_left (fun t e => (t + Transcripts.duration_of e)%float) es t0.








Abbreviation emin64 := (-1074)%Z.

(** [ceil(a / b)] for a positive [b]. *)
Definition ceil_div (a b : Z) : Z := ((a + b - 1) / b)%Z.

Definition sum_Z (l : list Z) : Z := fold_right Z.add 0%Z l.

(** The decimal number a string of digits reads as. *)
Definition read_decimal (s : string) : option nat :=
  option_map Nat.of_uint (NilEmpty.uint_of_string s).



(** The fallback part of what a document contributes. *)
Definition fallback_of (data : Transcripts.document) : list Transcripts.entry :=
  match Transcripts.doc_entries data, Transcripts.flat_transcript data with
  | [], Some text => [Transcripts.fallback_entry text]
  | _, _ => []
  end.


(** The speakers of a list of labels, each at its first occurrence. *)
Definition see (seen : list string) (speaker : string) : list string :=
  if existsb (String.eqb speaker) seen then seen else (seen ++ [speaker])%list.

Definition first_seen (speakers : list string) : list string :=
  fold_left see speakers [].

(** Ascending order of file names. *)
Definition name_le (a b : string) : Prop := String.leb a b = true.

(** The directory, base name and extension [split_audio] names its
    chunks with. *)
Definition chunk_dir (mkdtemp : string) (output_dir : option string) : string :=
  match output_dir with
  | None => mkdtemp
  | Some dir => dir
  end.

Definition chunk_base (audio_path : string) : string :=
  fst (OsPath.splitext (OsPath.basename audio_path)).

Definition chunk_ext (audio_path : string) : string :=
  match snd (OsPath.splitext audio_path) with
  | EmptyString => ".wav"
  | e => e
  end.

(** The path of chunk [i]. *)
Definition chunk_path (mkdtemp : string) (output_dir : option string)
  (audio_path : string) (i : nat) : string :=
  OsPath.join (chunk_dir mkdtemp output_dir)
    (chunk_base audio_path ++ "_chunk" ++ PyStr.format_03d i
     ++ chunk_ext audio_path).

(** The window of chunk [i]: [i * D, min((i + 1) * D, len)). *)
Definition chunk_window (len D : Z) (mkdtemp : string)
  (output_dir : option string) (audio_path : string) (i : nat) : Audio.export :=
  Audio.Export (chunk_path mkdtemp output_dir audio_path i)
    (Z.of_nat i * D)%Z (Z.min ((Z.of_nat i + 1) * D) len)%Z.

End Vocabulary.

(* ------------------------------------------------------------------ *)
(** ** More of Python's strings and of [os.path] *)

Module PyText.

Open Scope string_scope.

(** [s.replace(old, new)] for a non-empty [old]: the occurrences are
    found from the left, as [split] finds them. *)
Definition replace (old new s : string) : string :=
  PyStr.join new (PyStr.split old s).

(** [s.rstrip(c)] for a single character [c] *)
Fixpoint rstrip_char (c : ascii) (s : string) : string :=
  match s with
  | EmptyString => EmptyString
  | String a s' =>
      match rstrip_char c s' with
      | EmptyString => if Ascii.eqb a c then EmptyString else String a EmptyString
      | r => String a r
      end
  end.

(** [s == c * len(s)] *)
Fixpoint all_char (c : ascii) (s : string) : bool :=
  match s with
  | EmptyString => true
  | String a s' => Ascii.eqb a c && all_char c s'
  end.

(** [os.path.dirname(p)]: what precedes the last slash, without its
    trailing slashes unless it is made of slashes only. *)
Definition dirname (p : string) : string :=
  let head := PyStr.take (PyStr.rfind_succ "/" p) p in
  if negb (String.eqb head "") && negb (all_char "/" head)
  then rstrip_char "/" head
  else head.

(** [str(i)] for [i >= 0] *)
Definition str_nat (i : nat) : string :=
  NilZero.string_of_uint (Nat.to_uint i).

End PyText.

(* ------------------------------------------------------------------ *)
(** ** The scorecard in the grading prompts

    [CallAnalytics.grade_call] numbers the criteria it is given, each a
    dictionary with the keys [criteria] and [description];
    [SarvamEngine.grade_call] lists its items, which are strings, as
    bullets. *)

Module Scorecard.

Open Scope string_scope.

(** One element of [scorecard_criteria]; an absent key is [None]. *)
Record criterion : Type := Criterion {
  criteria : option string;
  description : option string
}.

(** One turn of [for idx, item in enumerate(scorecard_criteria, 1)]. *)
Definition criterion_line (idx : nat) (item : criterion) : string :=
  let name := match criteria item with Some s => s | None => "Unknown" end in
  let desc := match description item with Some s => s | None => "" end in
  PyText.str_nat idx ++ ". " ++ name ++ ": " ++ desc ++ nl.

Fixpoint criteria_loop (idx : nat) (scorecard_criteria : list criterion)
  (criteria_text : string) : string :=
  match scorecard_criteria with
  | [] => criteria_text
  | item :: rest =>
      criteria_loop (S idx) rest (criteria_text ++ criterion_line idx item)
  end.

(** [criteria_text] of [CallAnalytics.grade_call] *)
Definition criteria_text (scorecard_criteria : list criterion) : string :=
  criteria_loop 1 scorecard_criteria "".

(** [scorecard_text] of [SarvamEngine.grade_call] *)
Definition scorecard_text (scorecard_items : list string) : string :=
  PyStr.join nl (map (fun item => "- " ++ item) scorecard_items).

End Scorecard.

(* ------------------------------------------------------------------ *)
(** ** The analysis of a conversation file

    [analyze_call] of [SarvamEngine], [analyze_transcription] and
    [get_summary] of [CallAnalytics].  The files are a dictionary from
    paths to texts; directories are not modelled, so a write always
    succeeds.  The chat endpoint is known by the reply it gives to the
    prompt built from a text: [complete_analysis transcription] for the
    analysis prompt, [complete_summary analysis_text] for the summary
    prompt. *)

Module Analysis.

Open Scope string_scope.

Definition files : Type := PyDict.dict string.

(** What the [except Exception] branches catch. *)
Inductive failure : Type :=
| FileNotFoundError (path : string)
| Raised (e : exn).

(** [open(path, "r").read()] *)
Definition read (fs : files) (path : string) : failure + string :=
  match PyDict.get fs path with
  | Some text => inr text
  | None => inl (FileNotFoundError path)
  end.

(** [open(path, "w").write(text)] *)
Definition write (fs : files) (path text : string) : files :=
  PyDict.set fs path text.

(** [os.path.basename(conversation_file).replace("_conversation.txt", "")] *)
Definition base_name_of (conversation_file : string) : string :=
  PyText.replace "_conversation.txt" "" (OsPath.basename conversation_file).

(** [os.path.join(output_dir, f"{base_name}_analysis.txt")] *)
Definition analysis_path_in (output_dir conversation_file : string) : string :=
  OsPath.join output_dir (base_name_of conversation_file ++ "_analysis.txt").

(** The value under [error]. *)
Inductive error : Type :=
| EmptyTranscription
| StrOf (f : failure).

(** The dictionary [analyze_call] returns. *)
Inductive analysis : Type :=
| Analysed (analysis_text analysis_file : string)
| NotAnalysed (err : error).

Section WithChat.

Variable complete_analysis : string -> exn + string.
Variable complete_summary : string -> exn + string.

(** [SarvamEngine.analyze_call(conversation_file, output_dir)] *)
Definition analyze_call (fs : files) (conversation_file : string)
  (output_dir : option string) : files * analysis :=
  let output_dir := match output_dir with
                    | None => PyText.dirname conversation_file
                    | Some d => d
                    end in
  match read fs conversation_file with
  | inl f => (fs, NotAnalysed (StrOf f))
  | inr transcription =>
      if String.eqb (PyStr.strip transcription) "" then
        (fs, NotAnalysed EmptyTranscription)
      else
        match complete_analysis transcription with
        | inl e => (fs, NotAnalysed (StrOf (Raised e)))
        | inr analysis_text =>
            let analysis_path := analysis_path_in output_dir conversation_file in
            (write fs analysis_path analysis_text,
             Analysed analysis_text analysis_path)
        end
  end.

(** [CallAnalytics.analyze_transcription(conversation_file, output_dir)]:
    the path of the analysis, or [None]. *)
Definition analyze_transcription (fs : files)
  (conversation_file output_dir : string) : files * option string :=
  match read fs conversation_file with
  | inl _ => (fs, None)
  | inr transcription =>
      if String.eqb (PyStr.strip transcription) "" then (fs, None)
      else
        match complete_analysis transcription with
        | inl _ => (fs, None)
        | inr analysis_text =>
            let analysis_path := analysis_path_in output_dir conversation_file in
            (write fs analysis_path analysis_text, Some analysis_path)
        end
  end.


End WithChat.

End Analysis.

(* ------------------------------------------------------------------ *)
(** ** The files a batch uploads

    The first step of [transcribe_audio] and [process_audio_files]:
    every path goes through [split_audio] with its defaults (chunks of
    one hour, a fresh temporary directory), and the lists are chained.
    [audio_len path] is [len(AudioSegment.from_file(path))] or the
    exception of the decoder, [mkdtemp n] the directory handed out by
    the call number [n] of [tempfile.mkdtemp], [abspath] is
    [os.path.abspath]. *)

Module Batch.

Open Scope Z_scope.

Definition one_hour : Z := 60 * 60 * 1000.

Section WithAudio.

Variable audio_len : string -> exn + Z.
Variable mkdtemp : nat -> string.
Variable abspath : string -> string.

(** The state of the loop: the paths so far, the chunks exported so far
    and the number of temporary directories made so far. *)
Record gathered : Type := Gathered {
  all_paths : list string;
  exported : list Audio.export;
  tempdirs : nat
}.

(** [all_paths.extend(split_audio(path))] *)
Definition extend (g : gathered) (path : string) : exn + gathered :=
  len <- audio_len path ;;
  out <- Audio.split_audio len (mkdtemp (tempdirs g)) path one_hour None ;;
  inr (Gathered (all_paths g ++ Audio.chunks out)
                (exported g ++ Audio.written out)
                (if len <=? one_hour then tempdirs g else S (tempdirs g))).

Fixpoint gather (audio_paths : list string) (g : gathered) : exn + gathered :=
  match audio_paths with
  | [] => inr g
  | path :: rest => g' <- extend g path ;; gather rest g'
  end.

(** The list handed to [job.upload_files]. *)
Definition upload_list (audio_paths : list string) : exn + list string :=
  g <- gather audio_paths (Gathered [] [] 0) ;;
  inr (map abspath (all_paths g)).

End WithAudio.

End Batch.

(* ------------------------------------------------------------------ *)
(** ** More vocabulary of the statements *)

Module Words.

Open Scope string_scope.

(** A text of white space only. *)
Fixpoint all_space (s : string) : bool :=
  match s with
  | EmptyString => true
  | String c s' => PyStr.isspace c && all_space s'
  end.

(** No slash in [s]. *)
Fixpoint no_slash (s : string) : bool :=
  match s with
  | EmptyString => true
  | String c s' => negb (Ascii.eqb c "/") && no_slash s'
  end.

(** The line of a criterion in the numbered list, without its newline. *)
Definition numbered_line (idx : nat) (item : Scorecard.criterion) : string :=
  PyText.str_nat idx ++ ". "
  ++ match Scorecard.criteria item with Some s => s | None => "Unknown" end
  ++ ": "
  ++ match Scorecard.description item with Some s => s | None => "" end.

(** Neither the name nor the description of a criterion holds a newline. *)
Definition one_line_criterion (item : Scorecard.criterion) : bool :=
  negb (PyStr.contains nl
          match Scorecard.criteria item with Some s => s | None => "" end)
  && negb (PyStr.contains nl
             match Scorecard.description item with Some s => s | None => "" end).

(** The numbered lines of a scorecard, the first one numbered [idx]. *)
Fixpoint numbered_from (idx : nat) (items : list Scorecard.criterion)
  : list string :=
  match items with
  | [] => []
  | item :: rest => numbered_line idx item :: numbered_from (S idx) rest
  end.

(** The number of files [split_audio] returns for an audio of [len]
    milliseconds cut by the hour. *)
Definition parts_of (len : Z) : nat :=
  if (len <=? Batch.one_hour)%Z then 1
  else Z.to_nat (Vocabulary.ceil_div len Batch.one_hour).

End Words.

(* ================================================================== *)
(** * Facts about the string primitives *)

Section StringFacts.

Import Vocabulary.
Open Scope string_scope.

Lemma append_nil_r (s : string) : s ++ "" = s.
Proof. induction s as [|c s IH]; simpl; [reflexivity|now rewrite IH]. Qed.

Lemma append_assoc (a b c : string) : (a ++ b) ++ c = a ++ (b ++ c).
Proof. induction a as [|x a IH]; simpl; [reflexivity|now rewrite IH]. Qed.

Lemma length_append (a b : string) :
  String.length (a ++ b) = String.length a + String.length b.
Proof. induction a as [|x a IH]; simpl; [reflexivity|now rewrite IH]. Qed.

Lemma drop_append (a b : string) : PyStr.drop (String.length a) (a ++ b) = b.
Proof. induction a as [|x a IH]; simpl; [reflexivity|exact IH]. Qed.

Lemma prefix_append (a b : string) : String.prefix a (a ++ b) = true.
Proof.
  induction a as [|x a IH]; simpl; [now destruct b|].
  destruct (ascii_dec x x) as [_|H]; [exact IH|now elim H].
Qed.

Lemma prefix_nil_r (s : string) : s <> "" -> String.prefix s "" = false.
Proof. destruct s; [now intros H; elim H|reflexivity]. Qed.

(** Passing over [k] characters is dropping them. *)
Lemma split_go_skip (sep : string) (s : string) :
  forall k cur, PyStr.split_go sep k cur s = PyStr.split_go sep 0 cur (PyStr.drop k s).
Proof.
  induction s as [|c s IH]; intros k cur.
  - destruct k; reflexivity.
  - destruct k as [|k]; [reflexivity|]. simpl. apply IH.
Qed.

(** [split] cuts at the first occurrence of the separator and goes on
    with what follows it. *)
Lemma split_go_shape (sep : string) (Hsep : sep <> "") (s : string) :
  forall cur,
    PyStr.split_go sep 0 cur s =
    match after_first sep s with
    | None => [cur ++ s]
    | Some post => (cur ++ before_first sep s) :: PyStr.split_go sep 0 "" post
    end.
Proof.
  induction s as [|c s IH]; intros cur.
  - destruct sep as [|x sep]; [now elim Hsep|]. simpl. now rewrite append_nil_r.
  - cbn [PyStr.split_go after_first before_first].
    destruct (String.prefix sep (String c s)) eqn:Hp.
    + rewrite append_nil_r, split_go_skip. do 2 f_equal.
      destruct sep as [|x sep]; [now elim Hsep|]. simpl. now rewrite Nat.sub_0_r.
    + rewrite IH. destruct (after_first sep s) as [post|].
      * now rewrite append_assoc.
      * now rewrite append_assoc.
Qed.

Lemma contains_after_first (sep s : string) :
  PyStr.contains sep s = match after_first sep s with Some _ => true | None => false end.
Proof.
  induction s as [|c s IH].
  - now destruct sep.
  - cbn [PyStr.contains after_first].
    destruct (String.prefix sep (String c s)); [reflexivity|exact IH].
Qed.

Lemma before_first_none (sep s : string) :
  PyStr.contains sep s = false -> before_first sep s = s.
Proof.
  induction s as [|c s IH].
  - now destruct sep.
  - cbn [PyStr.contains before_first].
    destruct (String.prefix sep (String c s)); [discriminate|].
    intros H. now rewrite IH.
Qed.

(** [s.split(sep)[0]] *)
Lemma split_index_0 (sep : string) (Hsep : sep <> "") (s : string) :
  index (PyStr.split sep s) 0 = inr (before_first sep s).
Proof.
  unfold PyStr.split. rewrite split_go_shape by assumption.
  destruct (after_first sep s) as [post|] eqn:Ha; [reflexivity|].
  unfold index. simpl. rewrite before_first_none; [reflexivity|].
  now rewrite contains_after_first, Ha.
Qed.

(** [s.split(sep)[1]] *)
Lemma split_index_1 (sep : string) (Hsep : sep <> "") (s : string) :
  index (PyStr.split sep s) 1 =
  match after_first sep s with
  | Some post => inr (before_first sep post)
  | None => inl IndexError
  end.
Proof.
  unfold PyStr.split. rewrite split_go_shape by assumption.
  destruct (after_first sep s) as [post|] eqn:Ha; [|reflexivity].
  unfold index. cbn [nth_error].
  pose proof (split_index_0 sep Hsep post) as H0. unfold PyStr.split, index in H0.
  destruct (PyStr.split_go sep 0 "" post) as [|x l]; simpl in *; [discriminate|].
  congruence.
Qed.

(** A text that starts with a backtick is not found inside a text
    without backticks. *)
Lemma before_first_clean (sep' pre post : string) :
  no_backtick pre = true ->
  before_first (String "`" sep') (pre ++ post) =
  pre ++ before_first (String "`" sep') post.
Proof.
  intros Hpre. induction pre as [|c pre IH]; [reflexivity|].
  simpl in Hpre. apply andb_prop in Hpre. destruct Hpre as [Hc Hpre].
  cbn [append before_first String.prefix].
  destruct (ascii_dec "`" c) as [E|_].
  - subst c. discriminate.
  - now rewrite IH.
Qed.

Lemma after_first_clean (sep' pre post : string) :
  no_backtick pre = true ->
  after_first (String "`" sep') (pre ++ post) = after_first (String "`" sep') post.
Proof.
  intros Hpre. induction pre as [|c pre IH]; [reflexivity|].
  simpl in Hpre. apply andb_prop in Hpre. destruct Hpre as [Hc Hpre].
  cbn [append after_first String.prefix].
  destruct (ascii_dec "`" c) as [E|_].
  - subst c. discriminate.
  - now rewrite IH.
Qed.

Lemma after_first_here (sep post : string) :
  after_first sep (sep ++ post) = Some post.
Proof.
  destruct sep as [|x sep].
  - simpl. destruct post; reflexivity.
  - pose proof (prefix_append (String x sep) post) as Hp.
    pose proof (drop_append (String x sep) post) as Hd.
    cbn [append] in *. cbn [after_first]. rewrite Hp. now rewrite Hd.
Qed.

Lemma before_first_here (sep post : string) :
  before_first sep (sep ++ post) = "".
Proof.
  destruct sep as [|x sep].
  - simpl. destruct post; reflexivity.
  - pose proof (prefix_append (String x sep) post) as Hp.
    cbn [append] in *. cbn [before_first]. now rewrite Hp.
Qed.

End StringFacts.

(* ================================================================== *)
(** * Facts about binary64 arithmetic

    The operations on [float] are specified by the Standard Library
    through [Prim2SF] and the functions of [SpecFloat]; the sign of a
    rounded sum or difference is read off those functions. *)

Section RoundingFacts.

Import Vocabulary.
Open Scope Z_scope.

Lemma iter_pos_inv (A : Type) (P : A -> Prop) (f : A -> A) :
  (forall x, P x -> P (f x)) -> forall p x, P x -> P (iter_pos f p x).
Proof.
  intros Hf p. induction p as [p IH|p IH|]; intros x Hx; simpl; auto.
Qed.




















End RoundingFacts.

Section FloatFacts.

Import Vocabulary.
Open Scope float_scope.

Lemma Prim2SF_zero : Prim2SF 0 = S754_zero false.
Proof. reflexivity. Qed.



Lemma eqb_zero_spec x :
  (x =? 0) = match Prim2SF x with S754_zero _ => true | _ => false end.
Proof.
  rewrite eqb_spec, Prim2SF_zero. unfold SFeqb.
  destruct (Prim2SF x) as [s|s| |s m e]; simpl; try reflexivity; destruct s; reflexivity.
Qed.




End FloatFacts.

(* ================================================================== *)
(** * Facts about durations *)

Section DurationFacts.

Import Vocabulary.
Open Scope float_scope.







End DurationFacts.

(* ================================================================== *)
(** * Facts about dictionaries *)

Section DictFacts.

Context {V : Type}.

Lemma get_set_eq (d : PyDict.dict V) (k : string) (v : V) :
  PyDict.get (PyDict.set d k v) k = Some v.
Proof.
  induction d as [|[k' v'] d IH]; simpl.
  - now rewrite String.eqb_refl.
  - destruct (String.eqb k k') eqn:E; simpl; rewrite E; [reflexivity|exact IH].
Qed.

Lemma get_set_ne (d : PyDict.dict V) (k k' : string) (v : V) :
  k <> k' -> PyDict.get (PyDict.set d k v) k' = PyDict.get d k'.
Proof.
  intros Hne. induction d as [|[k0 v0] d IH]; simpl.
  - destruct (String.eqb k' k) eqn:E; [|reflexivity].
    apply String.eqb_eq in E. now elim Hne.
  - destruct (String.eqb k k0) eqn:E; simpl.
    + apply String.eqb_eq in E. subst k0.
      destruct (String.eqb k' k) eqn:E'; [|reflexivity].
      apply String.eqb_eq in E'. now elim Hne.
    + destruct (String.eqb k' k0); [reflexivity|exact IH].
Qed.

End DictFacts.

(* ================================================================== *)
(** * Facts about [_parse_transcriptions] *)

Section TranscriptFacts.

Import Vocabulary Transcripts.
Open Scope string_scope.

Lemma lines_fold (l : list entry) :
  forall a, conversation_lines (fold_left step l a)
            = (conversation_lines a ++ map line_of l)%list.
Proof.
  induction l as [|e l IH]; intros a; simpl.
  - now rewrite app_nil_r.
  - rewrite IH. simpl. now rewrite <- app_assoc.
Qed.

Lemma conversation_lines_run (l : list entry) :
  conversation_lines (run l) = map line_of l.
Proof. unfold run. now rewrite lines_fold. Qed.

Lemma times_fold (s : string) (l : list entry) :
  forall a,
    PyDict.get (speaker_times (fold_left step l a)) s =
    match entries_of s l with
    | [] => PyDict.get (speaker_times a) s
    | es => Some (total_from (PyDict.get_default (speaker_times a) s 0%float) es)
    end.
Proof.
  induction l as [|e l IH]; intros a; [reflexivity|].
  cbn [fold_left]. rewrite IH. unfold entries_of at 2. cbn [filter].
  fold (entries_of s l).
  destruct (String.eqb (speaker_of e) s) eqn:E.
  - apply String.eqb_eq in E. subst s.
    assert (Hget : PyDict.get (speaker_times (step a e)) (speaker_of e) =
                   Some (PyDict.get_default (speaker_times a) (speaker_of e) 0
                         + duration_of e)%float)
      by (unfold step; cbn [speaker_times]; apply get_set_eq).
    unfold PyDict.get_default at 1. rewrite Hget.
    destruct (entries_of (speaker_of e) l); reflexivity.
  - apply String.eqb_neq in E.
    assert (Hget : PyDict.get (speaker_times (step a e)) s =
                   PyDict.get (speaker_times a) s)
      by (unfold step; cbn [speaker_times]; now apply get_set_ne).
    unfold PyDict.get_default. rewrite Hget.
    destruct (entries_of s l); reflexivity.
Qed.

(** The timing map holds, for each speaker met, the sum of the
    durations of the speaker's entries, added in the order of the
    record to [0.0]. *)
Lemma aggregate_get (s : string) (l : list entry) :
  PyDict.get (aggregate l) s =
  match entries_of s l with
  | [] => None
  | es => Some (total_from 0%float es)
  end.
Proof. unfold aggregate, run. rewrite times_fold. reflexivity. Qed.



Lemma entries_of_perm (s : string) (l1 l2 : list entry) :
  Permutation l1 l2 -> Permutation (entries_of s l1) (entries_of s l2).
Proof.
  intros H. induction H; simpl.
  - constructor.
  - destruct (String.eqb (speaker_of x) s); auto.
  - destruct (String.eqb (speaker_of x) s), (String.eqb (speaker_of y) s);
      auto using perm_swap, Permutation_refl.
  - eapply Permutation_trans; eauto.
Qed.

Lemma serialize_eq (l : list entry) :
  serialize l = String.concat nl (map line_of l) ++ nl.
Proof. unfold serialize, PyStr.join. now rewrite conversation_lines_run. Qed.

Lemma concat_terminated (lines : list string) :
  lines <> [] ->
  String.concat nl lines ++ nl =
  fold_right (fun x acc => x ++ nl ++ acc) "" lines.
Proof.
  induction lines as [|x lines IH]; intros Hne; [now elim Hne|].
  destruct lines as [|y lines].
  - simpl. reflexivity.
  - cbn [String.concat fold_right] in *. rewrite !append_assoc.
    rewrite IH by discriminate. reflexivity.
Qed.

Lemma collect_app (d : directory) (fnames : list string) :
  forall acc,
    collect d fnames acc =
    (acc ++ flat_map (fun fname =>
                        if negb (PyStr.endswith fname ".json") then []
                        else match load d fname with
                             | None => []
                             | Some data => contribution data
                             end) fnames)%list.
Proof.
  induction fnames as [|f fnames IH]; intros acc; simpl.
  - now rewrite app_nil_r.
  - destruct (PyStr.endswith f ".json"); simpl.
    + destruct (load d f); rewrite IH; [now rewrite app_assoc|reflexivity].
    + apply IH.
Qed.

Lemma contribution_split (data : document) :
  contribution data = (doc_entries data ++ fallback_of data)%list.
Proof. reflexivity. Qed.


Lemma mem_keys {V : Type} (d : PyDict.dict V) (k : string) :
  PyDict.mem d k = existsb (String.eqb k) (PyDict.keys d).
Proof.
  unfold PyDict.mem. induction d as [|[k' v] d IH]; [reflexivity|].
  simpl. destruct (String.eqb k k'); [reflexivity|exact IH].
Qed.

Lemma keys_set {V : Type} (d : PyDict.dict V) (k : string) (v : V) :
  PyDict.keys (PyDict.set d k v) = see (PyDict.keys d) k.
Proof.
  unfold see. induction d as [|[k' v'] d IH]; [reflexivity|].
  simpl. destruct (String.eqb k k') eqn:E; [reflexivity|].
  simpl. rewrite IH. now destruct (existsb (String.eqb k) (PyDict.keys d)).
Qed.

Lemma keys_fold (l : list entry) :
  forall a,
    PyDict.keys (speaker_times (fold_left step l a))
    = fold_left see (map speaker_of l) (PyDict.keys (speaker_times a)).
Proof.
  induction l as [|e l IH]; intros a; [reflexivity|].
  simpl. rewrite IH. f_equal. apply keys_set.
Qed.

(** The keys of the timing map are the speakers of the record, each at
    its first occurrence. *)
Lemma aggregate_keys (l : list entry) :
  PyDict.keys (aggregate l) = first_seen (map speaker_of l).
Proof. unfold aggregate, run, first_seen. now rewrite keys_fold. Qed.

End TranscriptFacts.

(* ================================================================== *)
(** * Facts about [sorted] *)

Section SortFacts.

Import Vocabulary.

Lemma leb_refl (a : string) : name_le a a.
Proof.
  unfold name_le, String.leb.
  assert (H : String.compare a a = Eq) by (now apply String_as_OT.cmp_eq).
  now rewrite H.
Qed.

Lemma leb_trans (a b c : string) : name_le a b -> name_le b c -> name_le a c.
Proof.
  unfold name_le, String.leb. intros Hab Hbc.
  destruct (String.compare a b) eqn:Eab; try discriminate;
    destruct (String.compare b c) eqn:Ebc; try discriminate.
  - apply String_as_OT.cmp_eq in Eab. subst b. now rewrite Ebc.
  - apply String_as_OT.cmp_eq in Eab. subst b. now rewrite Ebc.
  - apply String_as_OT.cmp_eq in Ebc. subst c. now rewrite Eab.
  - apply String_as_OT.cmp_lt in Eab. apply String_as_OT.cmp_lt in Ebc.
    pose proof (String_as_OT.lt_trans _ _ _ Eab Ebc) as H.
    apply String_as_OT.cmp_lt in H. unfold String_as_OT.cmp in H. now rewrite H.
Qed.

Lemma insert_sorted_perm (x : string) (l : list string) :
  Permutation (PyStr.insert_sorted x l) (x :: l).
Proof.
  induction l as [|y l IH]; simpl; [apply Permutation_refl|].
  destruct (String.leb x y); [apply Permutation_refl|].
  eapply Permutation_trans; [apply perm_skip, IH|apply perm_swap].
Qed.

Lemma sorted_perm (l : list string) : Permutation (PyStr.sorted l) l.
Proof.
  induction l as [|x l IH]; simpl; [constructor|].
  eapply Permutation_trans; [apply insert_sorted_perm|now apply perm_skip].
Qed.

Lemma insert_sorted_sorted (x : string) (l : list string) :
  StronglySorted name_le l -> StronglySorted name_le (PyStr.insert_sorted x l).
Proof.
  induction l as [|y l IH]; intros Hs; simpl.
  - repeat constructor.
  - inversion Hs as [|? ? Hl Hy]; subst.
    destruct (String.leb x y) eqn:E.
    + constructor; [assumption|]. constructor; [exact E|].
      eapply Forall_impl; [|exact Hy]. intros z Hz. now apply leb_trans with y.
    + constructor; [now apply IH|].
      assert (Hyx : name_le y x).
      { destruct (String.leb_total x y) as [H|H]; [congruence|exact H]. }
      eapply Permutation_Forall; [apply Permutation_sym, insert_sorted_perm|].
      constructor; assumption.
Qed.

Lemma sorted_sorted (l : list string) : StronglySorted name_le (PyStr.sorted l).
Proof.
  induction l as [|x l IH]; simpl; [constructor|now apply insert_sorted_sorted].
Qed.




End SortFacts.

(* ================================================================== *)
(** * Facts about [split_audio] *)

Section AudioFacts.

Import Vocabulary Audio.
Open Scope Z_scope.

(** The number of windows [range] steps through is [ceil(len / D)]. *)
Lemma range0_ceil (len D : Z) :
  0 < D -> 0 < len ->
  range0 len D =
  inr (map (fun i => Z.of_nat i * D) (seq 0 (Z.to_nat (ceil_div len D)))).
Proof.
  intros HD Hlen. unfold range0, ceil_div.
  destruct (Z.eqb_spec D 0) as [E|_]; [lia|].
  destruct (Z.ltb_spec 0 D) as [_|E]; [|lia].
  destruct (Z.leb_spec len 0) as [E|_]; [lia|].
  replace (len + D - 1) with (len - 1 + 1 * D) by lia.
  rewrite Z.div_add by lia. reflexivity.
Qed.

Lemma export_loop_closed (len D : Z) (mkdtemp : string)
  (output_dir : option string) (audio_path : string) (n : nat) :
  forall i acc,
    export_loop len D (chunk_dir mkdtemp output_dir) (chunk_base audio_path)
      (chunk_ext audio_path) i
      (map (fun j => Z.of_nat j * D) (seq i n)) acc =
    Outcome
      (chunks acc ++ map (chunk_path mkdtemp output_dir audio_path) (seq i n))
      (written acc ++
       map (fun j => Export (chunk_path mkdtemp output_dir audio_path j)
                       (Z.min (Z.of_nat j * D) len)
                       (Z.min (Z.of_nat j * D + D) len))
           (seq i n)).
Proof.
  induction n as [|n IH]; intros i acc; simpl.
  - rewrite !app_nil_r. now destruct acc.
  - rewrite IH. simpl. rewrite <- !app_assoc. reflexivity.
Qed.

(** Window [i] starts inside the audio when [i < ceil(len / D)]. *)
Lemma window_start_lt (len D : Z) (i : nat) :
  0 < D -> 0 < len -> (i < Z.to_nat (ceil_div len D))%nat ->
  Z.of_nat i * D < len.
Proof.
  intros HD Hlen Hi. unfold ceil_div in Hi.
  replace (len + D - 1) with (len - 1 + 1 * D) in Hi by lia.
  rewrite Z.div_add in Hi by lia.
  assert (Hq : 0 <= (len - 1) / D) by (apply Z.div_pos; lia).
  assert (Hle : Z.of_nat i <= (len - 1) / D) by lia.
  pose proof (Z.mul_div_le (len - 1) D HD) as Hm.
  nia.
Qed.

(** The windows cover the audio. *)
Lemma windows_reach_end (len D : Z) :
  0 < D -> 0 < len -> len <= ceil_div len D * D.
Proof.
  intros HD Hlen. unfold ceil_div.
  replace (len + D - 1) with (len - 1 + 1 * D) by lia.
  rewrite Z.div_add by lia.
  pose proof (Z.mod_pos_bound (len - 1) D HD) as Hm.
  pose proof (Z.div_mod (len - 1) D ltac:(lia)) as Hd.
  nia.
Qed.

Lemma sum_Z_app (l1 l2 : list Z) : sum_Z (l1 ++ l2) = sum_Z l1 + sum_Z l2.
Proof.
  unfold sum_Z. induction l1 as [|x l1 IH]; simpl; [reflexivity|].
  rewrite IH. lia.
Qed.

(** The durations of the first [n] windows add up to the end of the
    last one. *)
Lemma windows_total (len D : Z) (mkdtemp : string)
  (output_dir : option string) (audio_path : string) (n : nat) :
  0 < D -> 0 <= len ->
  (forall i, (i < n)%nat -> Z.of_nat i * D < len) ->
  sum_Z (map export_duration
           (map (chunk_window len D mkdtemp output_dir audio_path) (seq 0 n)))
  = Z.min (Z.of_nat n * D) len.
Proof.
  intros HD Hlen. induction n as [|n IH]; intros Hin.
  - simpl. lia.
  - rewrite seq_S, !map_app, sum_Z_app. simpl map.
    rewrite IH by (intros i Hi; apply Hin; lia).
    unfold sum_Z, export_duration, chunk_window. simpl fold_right.
    cbn [export_stop export_start].
    specialize (Hin n ltac:(lia)). lia.
Qed.

Lemma format_03d_read (i : nat) : read_decimal (PyStr.format_03d i) = Some i.
Proof.
  unfold read_decimal, PyStr.format_03d.
  set (d := Nat.to_uint i).
  assert (Hd : NilEmpty.uint_of_string (NilZero.string_of_uint d) = Some d
               \/ (d = Decimal.Nil /\
                   NilZero.string_of_uint d = String "0" EmptyString)).
  { destruct d; try (left; apply NilEmpty.usu). right. now split. }
  assert (Hi : Nat.of_uint d = i) by apply Unsigned.of_to.
  assert (Hz : forall k s u, NilEmpty.uint_of_string s = Some u ->
               option_map Nat.of_uint
                 (NilEmpty.uint_of_string (PyStr.zeros k ++ s))
               = Some (Nat.of_uint u)).
  { induction k as [|k IHk]; intros s u Hs; simpl.
    - now rewrite Hs.
    - specialize (IHk s u Hs).
      destruct (NilEmpty.uint_of_string (PyStr.zeros k ++ s)) as [w|];
        [|discriminate].
      simpl in *. injection IHk as IHk. f_equal. rewrite <- IHk. reflexivity. }
  destruct Hd as [Hd|[Hn Hs]].
  - rewrite (Hz _ _ d Hd). now rewrite Hi.
  - rewrite Hs. rewrite Hn in Hi. simpl in Hi. subst i. reflexivity.
Qed.

Lemma format_03d_width (i : nat) : (3 <= String.length (PyStr.format_03d i))%nat.
Proof.
  unfold PyStr.format_03d. rewrite length_append.
  assert (Hz : forall k, String.length (PyStr.zeros k) = k)
    by (induction k as [|k IHk]; simpl; congruence).
  rewrite Hz. lia.
Qed.

Lemma format_03d_three (i : nat) :
  (i < 1000)%nat -> String.length (PyStr.format_03d i) = 3%nat.
Proof.
  intros Hi.
  assert (H : forallb (fun j => Nat.eqb (String.length (PyStr.format_03d j)) 3)
                (seq 0 1000) = true) by (vm_compute; reflexivity).
  rewrite forallb_forall in H. apply Nat.eqb_eq. apply H.
  apply in_seq. lia.
Qed.

End AudioFacts.

(* ================================================================== *)
(** * Facts about the fence handling of [grade_call] *)

Section FenceFacts.

Import Vocabulary.
Open Scope string_scope.

Lemma prefix_trans (q : string) :
  forall p s, String.prefix q p = true -> String.prefix p s = true ->
              String.prefix q s = true.
Proof.
  induction q as [|c q IH]; intros p s Hqp Hps; [now destruct s|].
  destruct p as [|b p]; [discriminate|]. destruct s as [|a s]; [discriminate|].
  simpl in *.
  destruct (ascii_dec c b) as [E1|]; [subst b|discriminate].
  destruct (ascii_dec c a) as [E2|]; [|discriminate].
  now apply IH with p.
Qed.

(** A text without any fence has no JSON-tagged fence either. *)
Lemma contains_prefix (q p s : string) :
  String.prefix q p = true ->
  PyStr.contains q s = false -> PyStr.contains p s = false.
Proof.
  intros Hqp. induction s as [|c s IH].
  - destruct q as [|x q]; [discriminate|]. destruct p; [discriminate|reflexivity].
  - cbn [PyStr.contains].
    destruct (String.prefix q (String c s)) eqn:Hq; [discriminate|].
    intros Hs. destruct (String.prefix p (String c s)) eqn:Hp; [|now apply IH].
    now rewrite (prefix_trans q p _ Hqp Hp) in Hq.
Qed.

Lemma prefix_cons (a b : ascii) (p s : string) :
  String.prefix (String a p) (String b s)
  = if Ascii.eqb a b then String.prefix p s else false.
Proof.
  cbn [String.prefix].
  destruct (ascii_dec a b) as [E|E].
  - subst b. now rewrite Ascii.eqb_refl.
  - apply Ascii.eqb_neq in E. now rewrite E.
Qed.

Lemma before_first_step (sep : string) (c : ascii) (s : string) :
  before_first sep (String c s)
  = if String.prefix sep (String c s) then ""
    else String c (before_first sep s).
Proof. reflexivity. Qed.

(** The closing fence ends the interior, whatever follows it, as long
    as no further backtick sticks to it. *)
Lemma closing_fence (rest : string) :
  no_backtick_head rest = true ->
  before_first "```" (before_first "```json" ("```" ++ rest)) = "".
Proof.
  intros Hr. destruct rest as [|c rest]; [reflexivity|].
  cbn [no_backtick_head] in Hr. apply negb_true_iff in Hr.
  assert (Hc : Ascii.eqb "`" c = false) by (now rewrite Ascii.eqb_sym).
  cbn [append]. rewrite before_first_step.
  destruct (String.prefix "```json" _); [reflexivity|].
  rewrite (before_first_step "```json" "`").
  assert (H2 : String.prefix "```json" (String "`" (String "`" (String c rest))) = false).
  { rewrite !prefix_cons, Hc. reflexivity. }
  rewrite H2. rewrite (before_first_step "```json" "`").
  assert (H1 : String.prefix "```json" (String "`" (String c rest)) = false).
  { rewrite !prefix_cons, Hc. reflexivity. }
  rewrite H1. rewrite before_first_step.
  assert (H0 : forall x, String.prefix "```" (String "`" (String "`" (String "`" x))) = true).
  { intros x. rewrite !prefix_cons. now destruct x. }
  now rewrite H0.
Qed.

(** The interior of a block opened by the JSON-tagged fence, as
    [split("```json")[1].split("```")[0]] finds it. *)
Lemma json_fence_interior (pre body rest : string) :
  no_backtick pre = true -> no_backtick body = true ->
  no_backtick_head rest = true ->
  let t := pre ++ "```json" ++ body ++ "```" ++ rest in
  PyStr.contains "```json" t = true /\
  (a <- index (PyStr.split "```json" t) 1 ;; index (PyStr.split "```" a) 0)
  = inr body.
Proof.
  intros Hpre Hbody Hrest t.
  assert (Ha : after_first "```json" t = Some (body ++ "```" ++ rest)).
  { unfold t. rewrite after_first_clean by assumption. apply after_first_here. }
  split; [now rewrite contains_after_first, Ha|].
  rewrite split_index_1 by discriminate. rewrite Ha. cbn [bind].
  rewrite split_index_0 by discriminate.
  rewrite (before_first_clean "``json") by assumption.
  rewrite (before_first_clean "``") by assumption.
  rewrite closing_fence by assumption. now rewrite append_nil_r.
Qed.

(** The interior of a block opened by a plain fence, as
    [split("```")[1].split("```")[0]] finds it. *)
Lemma plain_fence_interior (pre body rest : string) :
  no_backtick pre = true -> no_backtick body = true ->
  let t := pre ++ "```" ++ body ++ "```" ++ rest in
  PyStr.contains "```" t = true /\
  (a <- index (PyStr.split "```" t) 1 ;; index (PyStr.split "```" a) 0)
  = inr body.
Proof.
  intros Hpre Hbody t.
  assert (Ha : after_first "```" t = Some (body ++ "```" ++ rest)).
  { unfold t. rewrite after_first_clean by assumption. apply after_first_here. }
  split; [now rewrite contains_after_first, Ha|].
  rewrite split_index_1 by discriminate. rewrite Ha. cbn [bind].
  rewrite (before_first_clean "``") by assumption.
  rewrite before_first_here, append_nil_r.
  rewrite split_index_0 by discriminate.
  rewrite before_first_none; [reflexivity|].
  rewrite contains_after_first.
  replace body with (body ++ "") by apply append_nil_r.
  now rewrite after_first_clean.
Qed.

(** What [CallAnalytics] keeps of a text with a plain fence: the part
    before the fence. *)
Lemma plain_fence_prefix (pre rest : string) :
  no_backtick pre = true ->
  index (PyStr.split "```" (pre ++ "```" ++ rest)) 0 = inr pre.
Proof.
  intros Hpre. rewrite split_index_0 by discriminate.
  rewrite (before_first_clean "``") by assumption.
  now rewrite before_first_here, append_nil_r.
Qed.

End FenceFacts.

(* ================================================================== *)
(** * The audio chunker *)

Section ChunkerClaims.

Import Vocabulary Audio.
Open Scope Z_scope.

(** C9: an audio no longer than the chunk bound comes back as the
    one-element list holding the original path, and nothing is
    exported on the way (no copy, no re-encoding). *)
Theorem C9_short_audio_unchanged (len : Z) (mkdtemp audio_path : string)
  (chunk_duration_ms : Z) (output_dir : option string) :
  len <= chunk_duration_ms ->
  split_audio len mkdtemp audio_path chunk_duration_ms output_dir
  = inr (Outcome [audio_path] []).
Proof.
  intros Hle. unfold split_audio.
  destruct (Z.leb_spec len chunk_duration_ms) as [_|H]; [reflexivity|lia].
Qed.

Lemma C9_short_audio_unchanged_witness :
  split_audio 1800000 "/tmp/sarvam_chunks_x" "/data/call.wav" 3600000 None
  = inr (Outcome ["/data/call.wav"%string] []).
Proof.
  apply (C9_short_audio_unchanged 1800000 "/tmp/sarvam_chunks_x"
           "/data/call.wav" 3600000 None).
  lia.
Defined.

(** The closed form of a split: chunk [i] is named after its index and
    holds the window that starts at [i * D]. *)
Lemma split_audio_closed (len D : Z) (mkdtemp audio_path : string)
  (output_dir : option string) :
  0 < D -> D < len ->
  split_audio len mkdtemp audio_path D output_dir
  = inr (Outcome
           (map (chunk_path mkdtemp output_dir audio_path)
                (seq 0 (Z.to_nat (ceil_div len D))))
           (map (chunk_window len D mkdtemp output_dir audio_path)
                (seq 0 (Z.to_nat (ceil_div len D))))).
Proof.
  intros HD Hlen. unfold split_audio.
  destruct (Z.leb_spec len D) as [H|_]; [lia|].
  rewrite range0_ceil by lia.
  fold (chunk_dir mkdtemp output_dir). fold (chunk_base audio_path).
  fold (chunk_ext audio_path).
  rewrite export_loop_closed. cbn [chunks written app]. do 2 f_equal.
  apply map_ext_in. intros i Hi. apply in_seq in Hi.
  pose proof (window_start_lt len D i HD ltac:(lia) ltac:(lia)) as Hs.
  unfold chunk_window. f_equal; lia.
Qed.

(** C8, as the code has it: for a positive bound [D] and an audio
    longer than [D], [split_audio] returns [ceil(len / D)] paths; chunk
    [i] is named [{basename}_chunk{i:03d}{ext}] in the output directory,
    with the extension of the source or [.wav]; it holds the window
    from [i * D] to [min((i + 1) * D, len)], which is not empty and no
    longer than [D]; the windows add up to the length of the audio.
    The index is written in decimal, padded with zeros to three
    characters: three characters exactly below 1000, more from there
    on, so the indices read back as 0, 1, 2, ... *)
Theorem C8_long_audio_chunks (len D : Z) (mkdtemp audio_path : string)
  (output_dir : option string) :
  0 < D -> D < len ->
  exists out,
    split_audio len mkdtemp audio_path D output_dir = inr out /\
    List.length (chunks out) = Z.to_nat (ceil_div len D) /\
    List.length (written out) = Z.to_nat (ceil_div len D) /\
    (forall i, (i < Z.to_nat (ceil_div len D))%nat ->
       nth_error (chunks out) i
       = Some (OsPath.join (chunk_dir mkdtemp output_dir)
                 (chunk_base audio_path ++ "_chunk" ++ PyStr.format_03d i
                  ++ chunk_ext audio_path)%string) /\
       nth_error (written out) i
       = Some (chunk_window len D mkdtemp output_dir audio_path i)) /\
    Forall (fun x => 0 < export_duration x <= D) (written out) /\
    sum_Z (map export_duration (written out)) = len /\
    (forall i, read_decimal (PyStr.format_03d i) = Some i) /\
    (forall i, (3 <= String.length (PyStr.format_03d i))%nat) /\
    (forall i, (i < 1000)%nat -> String.length (PyStr.format_03d i) = 3%nat).
Proof.
  intros HD Hlen.
  eexists. split; [apply split_audio_closed; assumption|].
  cbn [chunks written]. set (k := Z.to_nat (ceil_div len D)).
  assert (Hin : forall i, (i < k)%nat -> Z.of_nat i * D < len)
    by (intros i Hi; apply window_start_lt; lia).
  repeat split.
  - now rewrite length_map, length_seq.
  - now rewrite length_map, length_seq.
  - rewrite nth_error_map, nth_error_seq.
    destruct (Nat.ltb_spec i k) as [_|Hge]; [reflexivity|lia].
  - rewrite nth_error_map, nth_error_seq.
    destruct (Nat.ltb_spec i k) as [_|Hge]; [reflexivity|lia].
  - apply Forall_forall. intros x Hx. apply in_map_iff in Hx.
    destruct Hx as (i & <- & Hi). apply in_seq in Hi.
    specialize (Hin i ltac:(lia)).
    unfold export_duration, chunk_window. cbn [export_stop export_start]. lia.
  - rewrite windows_total by (assumption || lia).
    pose proof (windows_reach_end len D HD ltac:(lia)) as Hend.
    assert (Hk : Z.of_nat k = ceil_div len D).
    { unfold k. rewrite Z2Nat.id; [reflexivity|]. unfold ceil_div.
      apply Z.div_pos; lia. }
    rewrite Hk. lia.
  - apply format_03d_read.
  - apply format_03d_width.
  - apply format_03d_three.
Qed.

Lemma C8_long_audio_chunks_witness :
  exists out,
    split_audio 7200001 "/tmp/sarvam_chunks_x" "/data/call" 3600000 None
    = inr out /\
    List.length (chunks out) = 3%nat /\
    sum_Z (map export_duration (written out)) = 7200001.
Proof.
  destruct (C8_long_audio_chunks 7200001 3600000 "/tmp/sarvam_chunks_x"
              "/data/call" None ltac:(lia) ltac:(lia))
    as (out & Hrun & Hlen & _ & _ & _ & Hsum & _).
  exists out. repeat split; assumption.
Defined.

(** C8 as the specification words it fails on a split into more than a
    thousand chunks: with a bound of 1 ms, an audio of 1001 ms is split
    into 1001 chunks, and the last one carries an index of four digits. *)
Lemma C8_four_digit_index :
  match split_audio 1001 "/tmp/c" "call.wav" 1 None with
  | inr out => nth_error (chunks out) 1000
  | inl _ => None
  end = Some "/tmp/c/call_chunk1000.wav"%string
  /\ String.length (PyStr.format_03d 1000) = 4%nat.
Proof. split; vm_compute; reflexivity. Qed.

(** A bound that is not positive is no duration: the loop of
    [split_audio] then has nothing to step through, or [range] refuses
    the step. *)
Example split_audio_negative_bound :
  split_audio 10 "/tmp/c" "call.wav" (-3) None = inr (Outcome [] []).
Proof. reflexivity. Qed.

Example split_audio_zero_bound :
  split_audio 10 "/tmp/c" "call.wav" 0 None
  = inl (ValueError "range() arg 3 must not be zero").
Proof. reflexivity. Qed.

Example chunk_ext_kept : chunk_ext "/data/call.mp3" = ".mp3"%string.
Proof. reflexivity. Qed.

Example chunk_ext_default : chunk_ext "/data.d/call" = ".wav"%string.
Proof. reflexivity. Qed.

Example chunk_path_example :
  chunk_path "/tmp/sarvam_chunks_x" None "/data/call.mp3" 7
  = "/tmp/sarvam_chunks_x/call_chunk007.mp3"%string.
Proof. reflexivity. Qed.

End ChunkerClaims.

(* ================================================================== *)
(** * The transcript normaliser, the timing aggregator and the
      serialiser *)

Section TranscriptClaims.

Import Vocabulary Transcripts.
Open Scope string_scope.


(** C4: a document without diarized entries (the key
    [diarized_transcript] absent, its [entries] absent, or the list
    empty) that carries a top-level [transcript] contributes exactly one
    entry: speaker [SPEAKER_00], the flat text, both times [0.0]; without
    a top-level [transcript] it contributes nothing. *)
Theorem C4_fallback_entry (data : document) :
  doc_entries data = [] ->
  (diarized_transcript data = None \/
   diarized_transcript data = Some (Diarized None) \/
   diarized_transcript data = Some (Diarized (Some []))) /\
  (forall text, flat_transcript data = Some text ->
     contribution data
     = [Entry (Some "SPEAKER_00") (Some text) (Some 0%float) (Some 0%float)]) /\
  (flat_transcript data = None -> contribution data = []).
Proof.
  intros He. split; [|split].
  - unfold doc_entries in He.
    destruct (diarized_transcript data) as [[[l|]]|]; simpl in He;
      try subst l; auto.
  - intros text Ht. unfold contribution. now rewrite He, Ht.
  - intros Ht. unfold contribution. now rewrite He, Ht.
Qed.

Lemma C4_fallback_entry_witness :
  contribution (Document (Some (Diarized (Some []))) (Some "hello there"))
  = [Entry (Some "SPEAKER_00") (Some "hello there") (Some 0%float) (Some 0%float)].
Proof.
  apply (C4_fallback_entry
           (Document (Some (Diarized (Some []))) (Some "hello there"))
           eq_refl).
  reflexivity.
Defined.

(** C10: the fallback looks at the presence of the key [transcript],
    not at its value: with an empty flat transcript the document still
    contributes the one fallback entry, which gives the line
    [SPEAKER_00: ] and adds a duration of [0.0] for [SPEAKER_00]. *)
Theorem C10_empty_flat_transcript (data : document) :
  doc_entries data = [] -> flat_transcript data = Some "" ->
  contribution data
  = [Entry (Some "SPEAKER_00") (Some "") (Some 0%float) (Some 0%float)] /\
  map line_of (contribution data) = ["SPEAKER_00: "] /\
  map duration_of (contribution data) = [0%float] /\
  serialize (contribution data) = "SPEAKER_00: " ++ nl /\
  aggregate (contribution data) = [("SPEAKER_00", 0%float)].
Proof.
  intros He Ht.
  assert (Hc : contribution data
               = [Entry (Some "SPEAKER_00") (Some "") (Some 0%float) (Some 0%float)]).
  { unfold contribution. now rewrite He, Ht. }
  rewrite Hc. repeat split.
Qed.

Lemma C10_empty_flat_transcript_witness :
  serialize (contribution (Document None (Some ""))) = "SPEAKER_00: " ++ nl.
Proof.
  apply (C10_empty_flat_transcript (Document None (Some "")) eq_refl eq_refl).
Defined.

End TranscriptClaims.

Section TimingClaims.

Import Vocabulary Transcripts.
Open Scope string_scope.



(** A timestamp that is not a number is outside the data model: the
    difference is then not a number either, and [max] keeps it. *)
Example duration_of_nan :
  is_nan (duration_of (Entry (Some "SPEAKER_00") (Some "x") (Some 0%float)
                         (Some nan))) = true.
Proof. reflexivity. Qed.

(** C6: the conversation text has one line [{speaker}: {text}] per
    entry of the record, in its order, an entry with an empty text
    included; the lines are joined by newlines and a newline ends the
    text, so that on a record that is not empty every line is followed
    by a newline.  On the two documents of the end-to-end scenario the
    text is the two lines of [SPEAKER_00] and [SPEAKER_01] and the
    timing map gives them 1.5 and 2.0. *)
Theorem C6_serialized_conversation :
  (forall l,
     conversation_lines (run l) = map line_of l /\
     List.length (conversation_lines (run l)) = List.length l /\
     serialize l = String.concat nl (map line_of l) ++ nl /\
     (l <> [] ->
      serialize l = fold_right (fun x acc => x ++ nl ++ acc) "" (map line_of l))) /\
  (forall e, line_of e = speaker_of e ++ ": " ++ text_of e) /\
  (forall speaker start stop,
     line_of (Entry (Some speaker) (Some "") start stop) = speaker ++ ": ") /\
  parse_transcriptions
    [("0.json",
      Document (Some (Diarized (Some
        [Entry (Some "SPEAKER_00") (Some "hello") (Some 0%float) (Some 1.5%float)])))
        None);
     ("1.json",
      Document (Some (Diarized (Some
        [Entry (Some "SPEAKER_01") (Some "hi there") (Some 0%float) (Some 2%float)])))
        None)]
  = ("SPEAKER_00: hello" ++ nl ++ "SPEAKER_01: hi there" ++ nl,
     [("SPEAKER_00", 1.5%float); ("SPEAKER_01", 2%float)]).
Proof.
  split; [|split; [|split]].
  - intros l. repeat split.
    + apply conversation_lines_run.
    + now rewrite conversation_lines_run, length_map.
    + apply serialize_eq.
    + intros Hne. rewrite serialize_eq. apply concat_terminated.
      destruct l; [now elim Hne|discriminate].
  - reflexivity.
  - reflexivity.
  - reflexivity.
Qed.

(** C7 as the specification words it fails on binary64 totals: the
    entries of durations 0.1, 0.2 and 0.3 of one speaker add up to
    0.6000000000000001 in this order and to 0.6 in the reverse order. *)
Lemma C7_rounding_depends_on_order :
  let a := Entry (Some "SPEAKER_00") (Some "a") (Some 0%float) (Some 0.1%float) in
  let b := Entry (Some "SPEAKER_00") (Some "b") (Some 0%float) (Some 0.2%float) in
  let c := Entry (Some "SPEAKER_00") (Some "c") (Some 0%float) (Some 0.3%float) in
  Permutation [a; b; c] [c; b; a] /\
  PyDict.get (aggregate [a; b; c]) "SPEAKER_00" = Some 0.6000000000000001%float /\
  PyDict.get (aggregate [c; b; a]) "SPEAKER_00" = Some 0.6%float /\
  (0.6 <? 0.6000000000000001)%float = true /\
  PyDict.get (aggregate [a; b; c]) "SPEAKER_00"
  <> PyDict.get (aggregate [c; b; a]) "SPEAKER_00".
Proof.
  cbv zeta.
  split; [|split; [reflexivity|split; [reflexivity|split; [reflexivity|]]]].
  2:{ intros H.
      apply (f_equal (fun o => match o with
                               | Some x => (0.6 <? x)%float
                               | None => false
                               end)) in H.
      vm_compute in H. discriminate H. }
  apply Permutation_trans
    with [Entry (Some "SPEAKER_00") (Some "b") (Some 0%float) (Some 0.2%float);
          Entry (Some "SPEAKER_00") (Some "c") (Some 0%float) (Some 0.3%float);
          Entry (Some "SPEAKER_00") (Some "a") (Some 0%float) (Some 0.1%float)].
  - apply (Permutation_cons_append [_; _]).
  - apply perm_trans with
      [Entry (Some "SPEAKER_00") (Some "c") (Some 0%float) (Some 0.3%float);
       Entry (Some "SPEAKER_00") (Some "b") (Some 0%float) (Some 0.2%float);
       Entry (Some "SPEAKER_00") (Some "a") (Some 0%float) (Some 0.1%float)];
      [apply perm_swap|apply Permutation_refl].
Qed.

(** C7, as the code has it: the timing maps of a record and of a
    permutation of it list the same speakers; the total of a speaker is
    the sum of the speaker's durations added in the order of the
    record, so the two maps give every speaker the same total whenever
    the permutation keeps the entries of each speaker in their order. *)
Theorem C7_order_within_speaker (l1 l2 : list entry) :
  Permutation l1 l2 ->
  (forall speaker,
     PyDict.mem (aggregate l1) speaker = PyDict.mem (aggregate l2) speaker) /\
  (forall speaker,
     PyDict.get (aggregate l1) speaker
     = match entries_of speaker l1 with
       | [] => None
       | es => Some (total_from 0%float es)
       end) /\
  ((forall speaker, entries_of speaker l1 = entries_of speaker l2) ->
   forall speaker,
     PyDict.get (aggregate l1) speaker = PyDict.get (aggregate l2) speaker).
Proof.
  intros Hperm. repeat split.
  - intros speaker. unfold PyDict.mem. rewrite !aggregate_get.
    pose proof (entries_of_perm speaker l1 l2 Hperm) as Hp.
    destruct (entries_of speaker l1) as [|e1 es1], (entries_of speaker l2) as [|e2 es2];
      try reflexivity.
    + apply Permutation_nil in Hp. discriminate.
    + apply Permutation_sym, Permutation_nil in Hp. discriminate.
  - intros speaker. apply aggregate_get.
  - intros Hsame speaker. now rewrite !aggregate_get, Hsame.
Qed.

Lemma C7_order_within_speaker_witness :
  let a := Entry (Some "SPEAKER_00") (Some "a") (Some 0%float) (Some 0.1%float) in
  let b := Entry (Some "SPEAKER_01") (Some "b") (Some 0%float) (Some 0.2%float) in
  PyDict.get (aggregate [a; b]) "SPEAKER_01"
  = PyDict.get (aggregate [b; a]) "SPEAKER_01".
Proof.
  cbv zeta.
  refine (proj2 (proj2 (C7_order_within_speaker _ _ (perm_swap _ _ [])))
            _ "SPEAKER_01").
  intros speaker. unfold entries_of. cbn [filter speaker_of speaker_id].
  destruct (String.eqb "SPEAKER_00" speaker) eqn:E0,
           (String.eqb "SPEAKER_01" speaker) eqn:E1; try reflexivity.
  apply String.eqb_eq in E0. apply String.eqb_eq in E1. congruence.
Defined.

End TimingClaims.

(* ================================================================== *)
(** * The grading response parser *)

Section GradingClaims.

Import Vocabulary Json.
Open Scope string_scope.

Variable json_loads : string -> option json.

(** What [SarvamEngine.grade_call] does with the text of the reply:
    the whole text first; failing that, the interior of the block
    opened by the JSON-tagged fence; without such a fence, the interior
    of the block opened by a plain fence; without any fence, the
    [ValueError] that makes the call fail. *)
Lemma sarvam_parse_response (response_text : string) :
  (forall v, json_loads response_text = Some v ->
     SarvamEngine.parse_response json_loads response_text = inr v) /\
  (json_loads response_text = None ->
   forall pre body rest,
     no_backtick pre = true -> no_backtick body = true ->
     no_backtick_head rest = true ->
     response_text = pre ++ "```json" ++ body ++ "```" ++ rest ->
     SarvamEngine.parse_response json_loads response_text
     = SarvamEngine.loads json_loads (PyStr.strip body)) /\
  (json_loads response_text = None ->
   PyStr.contains "```json" response_text = false ->
   forall pre body rest,
     no_backtick pre = true -> no_backtick body = true ->
     response_text = pre ++ "```" ++ body ++ "```" ++ rest ->
     SarvamEngine.parse_response json_loads response_text
     = SarvamEngine.loads json_loads (PyStr.strip body)) /\
  (json_loads response_text = None ->
   PyStr.contains "```" response_text = false ->
   SarvamEngine.parse_response json_loads response_text
   = inl (ValueError "Could not parse grading response as JSON")).
Proof.
  unfold SarvamEngine.parse_response. repeat split.
  - intros v Hv. now rewrite Hv.
  - intros Hn pre body rest Hpre Hbody Hrest ->. rewrite Hn.
    destruct (json_fence_interior pre body rest Hpre Hbody Hrest) as [Hc Hx].
    cbv zeta in Hc, Hx. rewrite Hc.
    destruct (index (PyStr.split "```json" _) 1) as [e|a]; [discriminate|].
    cbn [bind] in *. now rewrite Hx.
  - intros Hn Hj pre body rest Hpre Hbody ->. rewrite Hn, Hj.
    destruct (plain_fence_interior pre body rest Hpre Hbody) as [Hc Hx].
    cbv zeta in Hc, Hx. rewrite Hc.
    destruct (index (PyStr.split "```" _) 1) as [e|a]; [discriminate|].
    cbn [bind] in *. now rewrite Hx.
  - intros Hn Hc. rewrite Hn, Hc.
    now rewrite (contains_prefix "```" "```json" _ eq_refl Hc).
Qed.

(** With a transcript that is not blank and a scorecard that is not
    empty, a reply without any fence that is not JSON makes the call
    fail; nothing is tried again. *)
Lemma sarvam_no_fence_fails (transcript : string) (item : string)
  (items : list string) (response_text : string) :
  PyStr.strip transcript <> "" ->
  json_loads response_text = None ->
  PyStr.contains "```" response_text = false ->
  SarvamEngine.grade_call json_loads transcript (item :: items) (inr response_text)
  = SarvamEngine.Failed
      (SarvamEngine.Message "Could not parse grading response as JSON").
Proof.
  intros Ht Hn Hc. unfold SarvamEngine.grade_call.
  apply String.eqb_neq in Ht. rewrite Ht. cbn [bind].
  destruct (sarvam_parse_response response_text) as (_ & _ & _ & H).
  now rewrite (H Hn Hc).
Qed.

(** What [CallAnalytics.grade_call] keeps of a reply with a plain
    fence: the text before the fence, never the interior of the block. *)
Lemma callanalytics_plain_fence (pre rest : string) :
  no_backtick pre = true ->
  PyStr.contains "```json" (pre ++ "```" ++ rest) = false ->
  CallAnalytics.grade_call json_loads (inr (pre ++ "```" ++ rest))
  = match json_loads (PyStr.strip pre) with
    | Some v => v
    | None => None_
    end.
Proof.
  intros Hpre Hj. unfold CallAnalytics.grade_call, CallAnalytics.clean.
  cbn [bind]. rewrite Hj.
  assert (Hc : PyStr.contains "```" (pre ++ "```" ++ rest) = true).
  { rewrite contains_after_first, (after_first_clean "``") by assumption.
    now rewrite after_first_here. }
  rewrite Hc, plain_fence_prefix by assumption. cbn [bind].
  unfold SarvamEngine.loads. now destruct (json_loads (PyStr.strip pre)).
Qed.

(** C5, as the code has it: in [SarvamEngine.grade_call] a reply that
    parses to an object gives a success whose [grades], [overall_score]
    and [summary] are the fields of the object, or the empty list, [0]
    and the empty string for a field that is missing; no missing field
    makes the call fail.  [CallAnalytics.grade_call] returns the parsed
    value as it is: a missing field stays missing, and the call does
    not fail on it either. *)
Theorem C5_permissive_defaults :
  (forall transcript item items response_text d,
     PyStr.strip transcript <> "" ->
     SarvamEngine.parse_response json_loads response_text = inr (JDict d) ->
     SarvamEngine.grade_call json_loads transcript (item :: items)
       (inr response_text)
     = SarvamEngine.Success
         (PyDict.get_default d "grades" (JList []))
         (PyDict.get_default d "overall_score" (JInt 0))
         (PyDict.get_default d "summary" (JStr ""))) /\
  (forall content cleaned v,
     CallAnalytics.clean content = inr cleaned ->
     json_loads (PyStr.strip cleaned) = Some v ->
     CallAnalytics.grade_call json_loads (inr content) = v).
Proof.
  split.
  - intros transcript item items response_text d Ht Hp.
    unfold SarvamEngine.grade_call.
    apply String.eqb_neq in Ht. rewrite Ht. cbn [bind]. rewrite Hp. reflexivity.
  - intros content cleaned v Hc Hv. unfold CallAnalytics.grade_call.
    cbn [bind]. rewrite Hc. cbn [bind]. unfold SarvamEngine.loads. now rewrite Hv.
Qed.

End GradingClaims.

(* ================================================================== *)
(** * The two grading parsers on concrete replies *)

Section GradingExamples.

Import Json.
Open Scope string_scope.

(** C1: on a reply that wraps its object in a plain fence,
    [SarvamEngine.grade_call] parses the interior of the block, as the
    specification says; [CallAnalytics.grade_call] takes
    [split("```")[0]], the text before the fence, fails to parse it and
    returns [None].  On a reply that is an object holding the marker of
    a JSON-tagged fence inside a string, [SarvamEngine.grade_call]
    parses the whole text first and succeeds, while
    [CallAnalytics.grade_call] cuts the text at the marker before any
    parse and returns [None]. *)
Theorem C1_callanalytics_fence_divergence :
  Json.loads plain_fenced_reply = None /\
  SarvamEngine.grade_call Json.loads "SPEAKER_00: hello" ["Greeting"]
    (inr plain_fenced_reply)
  = SarvamEngine.Success (JList []) (JInt 4) (JStr "fine") /\
  CallAnalytics.grade_call Json.loads (inr plain_fenced_reply) = None_ /\
  Json.loads marker_in_string_reply
  = Some (JDict [("summary", JStr "wrap the answer in ```json")]) /\
  SarvamEngine.grade_call Json.loads "SPEAKER_00: hello" ["Greeting"]
    (inr marker_in_string_reply)
  = SarvamEngine.Success (JList []) (JInt 0)
      (JStr "wrap the answer in ```json") /\
  CallAnalytics.grade_call Json.loads (inr marker_in_string_reply) = None_.
Proof. repeat split; vm_compute; reflexivity. Qed.

(** C5 as the specification words it fails on [CallAnalytics]: the
    reply [{}] parses, and the value returned is the empty object,
    which has no [grades], no [overall_score] and no [summary]. *)
Lemma C5_callanalytics_returns_raw :
  Json.loads "{}" = Some (JDict []) /\
  CallAnalytics.grade_call Json.loads (inr "{}") = JDict [] /\
  SarvamEngine.grade_call Json.loads "SPEAKER_00: hello" ["Greeting"] (inr "{}")
  = SarvamEngine.Success (JList []) (JInt 0) (JStr "").
Proof. repeat split; vm_compute; reflexivity. Qed.

(** The replies of the specification's examples. *)
Example grade_empty_grades :
  SarvamEngine.grade_call Json.loads "SPEAKER_00: hello" ["Greeting"]
    (inr (dq "{'grades':[],'overall_score':0,'summary':''}"))
  = SarvamEngine.Success (JList []) (JInt 0) (JStr "").
Proof. vm_compute; reflexivity. Qed.

Example grade_json_fence :
  SarvamEngine.grade_call Json.loads "SPEAKER_00: hello" ["X"]
    (inr ("prose ```json" ++ nl
          ++ dq "{'grades':[{'criterion':'X','score':5,'reasoning':'ok'}],"
          ++ dq "'overall_score':5,'summary':'good'}" ++ nl ++ "```"))
  = SarvamEngine.Success
      (JList [JDict [("criterion", JStr "X"); ("score", JInt 5);
                     ("reasoning", JStr "ok")]])
      (JInt 5) (JStr "good").
Proof. vm_compute; reflexivity. Qed.

Example grade_not_json :
  SarvamEngine.grade_call Json.loads "SPEAKER_00: hello" ["X"]
    (inr "not json at all")
  = SarvamEngine.Failed
      (SarvamEngine.Message "Could not parse grading response as JSON").
Proof.
  apply sarvam_no_fence_fails; [discriminate|reflexivity|reflexivity].
Qed.

Example grade_empty_inputs :
  SarvamEngine.grade_call Json.loads "  " ["X"] (inr "{}")
  = SarvamEngine.Failed (SarvamEngine.Message "Empty transcript") /\
  SarvamEngine.grade_call Json.loads "SPEAKER_00: hello" [] (inr "{}")
  = SarvamEngine.Failed (SarvamEngine.Message "No scorecard items provided").
Proof. split; reflexivity. Qed.

Example callanalytics_plain_fence_example :
  CallAnalytics.grade_call Json.loads (inr plain_fenced_reply) = None_.
Proof.
  apply (callanalytics_plain_fence Json.loads "" _ eq_refl). reflexivity.
Qed.

Example callanalytics_json_fence_example :
  CallAnalytics.grade_call Json.loads
    (inr ("prose ```json" ++ nl ++ dq "{'grades': []}" ++ nl ++ "```"))
  = JDict [("grades", JList [])].
Proof. vm_compute; reflexivity. Qed.

End GradingExamples.

(* ================================================================== *)
(** * More facts about strings *)

Section MoreStringFacts.

Import Vocabulary Words.
Open Scope string_scope.

Lemma prefix_nil (s : string) : String.prefix "" s = true.
Proof. now destruct s. Qed.

Lemma append_cancel_l (a b c : string) : a ++ b = a ++ c -> b = c.
Proof.
  induction a as [|x a IH]; simpl; [auto|]. intros H. injection H as H. auto.
Qed.

Lemma append_cancel_r (c : string) :
  forall a b, a ++ c = b ++ c -> a = b.
Proof.
  intros a. induction a as [|x a IH]; intros b H.
  - destruct b as [|y b]; [reflexivity|].
    apply (f_equal String.length) in H. simpl in H. rewrite length_append in H. lia.
  - destruct b as [|y b].
    + apply (f_equal String.length) in H. simpl in H. rewrite length_append in H. lia.
    + simpl in H. injection H as Hx H. subst y. f_equal. now apply IH.
Qed.


(** A separator of one character. *)
Lemma after_first_char (c : ascii) (pre post : string) :
  PyStr.contains (String c "") pre = false ->
  after_first (String c "") (pre ++ String c post) = Some post /\
  before_first (String c "") (pre ++ String c post) = pre.
Proof.
  induction pre as [|a pre IH]; intros Hc.
  - cbn [append after_first before_first]. rewrite prefix_cons, Ascii.eqb_refl, prefix_nil.
    now split.
  - cbn [PyStr.contains] in Hc. rewrite prefix_cons, prefix_nil in Hc.
    destruct (Ascii.eqb c a) eqn:E; [discriminate|].
    cbn [append after_first before_first]. rewrite prefix_cons, E.
    destruct (IH Hc) as [H1 H2]. now rewrite H1, H2.
Qed.

Lemma split_first_char (c : ascii) (pre post : string) :
  PyStr.contains (String c "") pre = false ->
  PyStr.split (String c "") (pre ++ String c post)
  = pre :: PyStr.split (String c "") post.
Proof.
  intros Hc. unfold PyStr.split. rewrite split_go_shape by discriminate.
  destruct (after_first_char c pre post Hc) as [H1 H2]. now rewrite H1, H2.
Qed.

Lemma split_none (sep s : string) :
  sep <> "" -> PyStr.contains sep s = false -> PyStr.split sep s = [s].
Proof.
  intros Hsep Hc. unfold PyStr.split. rewrite split_go_shape by assumption.
  rewrite contains_after_first in Hc. now destruct (after_first sep s).
Qed.

(** Lines that end in the separator split back into themselves. *)
Lemma split_terminated (c : ascii) (lines : list string) :
  Forall (fun x => PyStr.contains (String c "") x = false) lines ->
  PyStr.split (String c "")
    (fold_right (fun x acc => x ++ String c "" ++ acc) "" lines)
  = (lines ++ [""])%list.
Proof.
  induction 1 as [|x lines Hx _ IH]; [reflexivity|].
  cbn [fold_right].
  change (PyStr.split (String c "")
            (x ++ String c (fold_right (fun x acc => x ++ String c "" ++ acc)
                              "" lines))
          = (x :: lines ++ [""])%list).
  now rewrite split_first_char, IH.
Qed.

Lemma lstrip_blank (s : string) : PyStr.lstrip s = "" <-> all_space s = true.
Proof.
  induction s as [|c s IH]; simpl; [tauto|].
  destruct (PyStr.isspace c); simpl; [exact IH|]. split; discriminate.
Qed.

Lemma rstrip_blank (s : string) : PyStr.rstrip s = "" <-> all_space s = true.
Proof.
  induction s as [|c s IH]; simpl; [tauto|].
  destruct (PyStr.rstrip s) as [|a r].
  - destruct (PyStr.isspace c); simpl.
    + split; [intros _; now apply IH|reflexivity].
    + split; discriminate.
  - split; [discriminate|]. intros H. apply andb_prop in H.
    destruct H as [_ H]. apply IH in H. discriminate.
Qed.

Lemma all_space_lstrip (s : string) :
  all_space (PyStr.lstrip s) = all_space s.
Proof.
  induction s as [|c s IH]; simpl; [reflexivity|].
  destruct (PyStr.isspace c) eqn:E; simpl; [exact IH|now rewrite E].
Qed.

Lemma strip_blank (s : string) : PyStr.strip s = "" <-> all_space s = true.
Proof. unfold PyStr.strip. now rewrite rstrip_blank, all_space_lstrip. Qed.

Lemma all_space_app (a b : string) :
  all_space (a ++ b) = all_space a && all_space b.
Proof.
  induction a as [|c a IH]; simpl; [reflexivity|]. now rewrite IH, andb_assoc.
Qed.

End MoreStringFacts.

(* ================================================================== *)
(** * More facts about [_parse_transcriptions] *)

Section MoreTranscriptFacts.

Import Vocabulary Words Transcripts.
Open Scope string_scope.

Lemma serialize_not_blank (e : entry) (l : list entry) :
  all_space (serialize (e :: l)) = false.
Proof.
  rewrite serialize_eq. cbn [map String.concat].
  assert (H : forall rest, all_space (line_of e ++ rest) = false).
  { intros rest. unfold line_of. rewrite append_assoc, all_space_app.
    cbn [append all_space]. replace (PyStr.isspace ":") with false by reflexivity.
    simpl. apply andb_false_r. }
  destruct (map line_of l); [apply H|]. rewrite !append_assoc. apply H.
Qed.

(** Sorting: a sorted list is determined by its elements. *)
Lemma sorted_unique (l1 : list string) :
  forall l2, StronglySorted name_le l1 -> StronglySorted name_le l2 ->
             Permutation l1 l2 -> l1 = l2.
Proof.
  induction l1 as [|a l1 IH]; intros l2 H1 H2 Hp.
  - apply Permutation_nil in Hp. now subst.
  - destruct l2 as [|b l2];
      [apply Permutation_sym, Permutation_nil in Hp; discriminate|].
    inversion H1 as [|? ? Hs1 Ha]; subst. inversion H2 as [|? ? Hs2 Hb]; subst.
    rewrite Forall_forall in Ha, Hb.
    assert (Hab : a = b).
    { assert (Hina : In a (b :: l2))
        by (eapply Permutation_in; [exact Hp|now left]).
      assert (Hinb : In b (a :: l1))
        by (eapply Permutation_in; [apply Permutation_sym; exact Hp|now left]).
      destruct Hina as [->|Hina]; [reflexivity|].
      destruct Hinb as [->|Hinb]; [reflexivity|].
      apply String.leb_antisym; [now apply Ha|now apply Hb]. }
    subst b. f_equal. apply IH; try assumption.
    now apply Permutation_cons_inv with a.
Qed.

Lemma sorted_of_perm (l1 l2 : list string) :
  Permutation l1 l2 -> PyStr.sorted l1 = PyStr.sorted l2.
Proof.
  intros Hp. apply sorted_unique; try apply sorted_sorted.
  eapply Permutation_trans; [apply sorted_perm|].
  eapply Permutation_trans; [exact Hp|apply Permutation_sym, sorted_perm].
Qed.

Lemma filter_insert_sorted (f : string -> bool) (x : string) (l : list string) :
  StronglySorted name_le l ->
  filter f (PyStr.insert_sorted x l)
  = if f x then PyStr.insert_sorted x (filter f l) else filter f l.
Proof.
  induction l as [|y l IH]; intros Hs.
  - simpl. now destruct (f x).
  - inversion Hs as [|? ? Hl Hy]; subst. simpl.
    destruct (String.leb x y) eqn:E.
    + simpl. destruct (f x) eqn:Fx; [|reflexivity].
      destruct (f y) eqn:Fy; simpl; [now rewrite E|].
      (* [x] goes before whatever of [l] is kept *)
      clear IH. f_equal.
      assert (Hx : Forall (name_le x) (filter f l)).
      { apply Forall_forall. intros z Hz. apply filter_In in Hz.
        rewrite Forall_forall in Hy. apply leb_trans with y; [exact E|].
        now apply Hy. }
      destruct (filter f l) as [|z r]; [reflexivity|].
      simpl. inversion Hx as [|? ? Hz _]; subst. unfold name_le in Hz.
      now rewrite Hz.
    + simpl. rewrite (IH Hl).
      destruct (f y) eqn:Fy, (f x) eqn:Fx; simpl; try reflexivity.
      now rewrite E.
Qed.

Lemma sorted_filter (f : string -> bool) (l : list string) :
  PyStr.sorted (filter f l) = filter f (PyStr.sorted l).
Proof.
  induction l as [|x l IH]; [reflexivity|]. simpl.
  rewrite filter_insert_sorted by apply sorted_sorted.
  destruct (f x); simpl; now rewrite IH.
Qed.

(** What [load] finds in a directory without two files of one name. *)
Lemma load_In (d : directory) (fname : string) (data : document) :
  NoDup (listdir d) -> (load d fname = Some data <-> In (fname, data) d).
Proof.
  induction d as [|[n doc] d IH]; intros Hnd; simpl.
  - split; [discriminate|contradiction].
  - inversion Hnd as [|? ? Hn Hd]; subst.
    destruct (String.eqb_spec fname n) as [->|Hne].
    + split.
      * intros [= ->]. now left.
      * intros [[= ->]|Hin]; [reflexivity|].
        elim Hn. apply in_map_iff. now exists (n, data).
    + rewrite (IH Hd). split; [now right|].
      intros [[= -> _]|Hin]; [now elim Hne|exact Hin].
Qed.

Lemma load_perm (d1 d2 : directory) (fname : string) :
  NoDup (listdir d1) -> Permutation d1 d2 -> load d1 fname = load d2 fname.
Proof.
  intros Hnd Hp.
  assert (Hnd2 : NoDup (listdir d2)).
  { eapply Permutation_NoDup; [|exact Hnd]. now apply Permutation_map. }
  destruct (load d1 fname) as [data|] eqn:E1.
  - apply (load_In d1 _ _ Hnd) in E1. symmetry. apply (load_In d2 _ _ Hnd2).
    eapply Permutation_in; eassumption.
  - destruct (load d2 fname) as [data|] eqn:E2; [|reflexivity].
    apply (load_In d2 _ _ Hnd2) in E2.
    assert (Hin : In (fname, data) d1)
      by (eapply Permutation_in; [apply Permutation_sym; exact Hp|exact E2]).
    apply (load_In d1 _ _ Hnd) in Hin. congruence.
Qed.

Lemma collect_ext (d1 d2 : directory) (fnames : list string) :
  (forall fname, load d1 fname = load d2 fname) ->
  forall acc, collect d1 fnames acc = collect d2 fnames acc.
Proof.
  intros Hl. induction fnames as [|f fnames IH]; intros acc; [reflexivity|].
  simpl. rewrite Hl. destruct (PyStr.endswith f ".json"); simpl; [|apply IH].
  destruct (load d2 f); apply IH.
Qed.

Lemma load_filter (d : directory) (fname : string) :
  PyStr.endswith fname ".json" = true ->
  load (filter (fun file => PyStr.endswith (fst file) ".json") d) fname
  = load d fname.
Proof.
  intros Hj. induction d as [|[n doc] d IH]; [reflexivity|]. simpl.
  destruct (String.eqb_spec fname n) as [->|Hne].
  - rewrite Hj. simpl. now rewrite String.eqb_refl.
  - destruct (PyStr.endswith n ".json"); simpl; [|exact IH].
    destruct (String.eqb_spec fname n) as [->|_]; [now elim Hne|exact IH].
Qed.

(** The speakers met so far. *)
Lemma see_In (seen : list string) (speaker s : string) :
  In s (see seen speaker) <-> In s seen \/ s = speaker.
Proof.
  unfold see. destruct (existsb (String.eqb speaker) seen) eqn:E.
  - split; [now left|]. intros [H| ->]; [exact H|].
    apply existsb_exists in E. destruct E as (x & Hx & Ex).
    apply String.eqb_eq in Ex. now subst x.
  - rewrite in_app_iff. simpl. intuition.
Qed.

Lemma see_NoDup (seen : list string) (speaker : string) :
  NoDup seen -> NoDup (see seen speaker).
Proof.
  intros Hn. unfold see. destruct (existsb (String.eqb speaker) seen) eqn:E;
    [exact Hn|].
  apply NoDup_app; [exact Hn|repeat constructor; simpl; tauto|].
  intros x Hx [Heq|[]]. subst x.
  assert (Ht : existsb (String.eqb speaker) seen = true)
    by (apply existsb_exists; exists speaker; split;
        [exact Hx|apply String.eqb_refl]).
  congruence.
Qed.

Lemma fold_see (speakers : list string) :
  forall seen, NoDup seen ->
    NoDup (fold_left see speakers seen) /\
    (forall s, In s (fold_left see speakers seen) <-> In s seen \/ In s speakers).
Proof.
  induction speakers as [|x speakers IH]; intros seen Hn; simpl.
  - split; [exact Hn|]. intros s. tauto.
  - destruct (IH (see seen x) (see_NoDup seen x Hn)) as [H1 H2].
    split; [exact H1|]. intros s. rewrite H2, see_In. intuition.
Qed.

End MoreTranscriptFacts.

(* ================================================================== *)
(** * Further properties of [_parse_transcriptions] *)

Section TranscriptProperties.

Import Vocabulary Words Transcripts.
Open Scope string_scope.

(** The two artifacts do not depend on the order in which
    [os.listdir] lists the files of the raw directory (which holds no
    two files of one name). *)
Theorem parse_independent_of_listing (d1 d2 : directory) :
  NoDup (listdir d1) -> Permutation d1 d2 ->
  parse_transcriptions d1 = parse_transcriptions d2.
Proof.
  intros Hnd Hp. unfold parse_transcriptions.
  assert (H : all_entries_of d1 = all_entries_of d2).
  { unfold all_entries_of.
    rewrite (sorted_of_perm (listdir d1) (listdir d2))
      by (now apply Permutation_map).
    apply collect_ext. intros fname. now apply load_perm. }
  now rewrite H.
Qed.

Lemma parse_independent_of_listing_witness :
  let a := Document (Some (Diarized (Some
             [Entry (Some "SPEAKER_00") (Some "hello") (Some 0%float)
                    (Some 1.5%float)]))) None in
  let b := Document None (Some "good bye") in
  parse_transcriptions [("1.json", b); ("0.json", a)]
  = parse_transcriptions [("0.json", a); ("1.json", b)].
Proof.
  cbv zeta. apply parse_independent_of_listing.
  - repeat constructor; simpl; intuition discriminate.
  - apply perm_swap.
Defined.

(** The files of the raw directory whose names do not end in [.json]
    play no part: the two artifacts are those of the directory without
    them. *)
Theorem parse_ignores_other_files (d : directory) :
  parse_transcriptions d
  = parse_transcriptions
      (filter (fun file => PyStr.endswith (fst file) ".json") d).
Proof.
  unfold parse_transcriptions.
  assert (H : all_entries_of d
              = all_entries_of
                  (filter (fun file => PyStr.endswith (fst file) ".json") d)).
  { unfold all_entries_of. rewrite !collect_app. cbn [app].
    assert (Hl : listdir (filter (fun file => PyStr.endswith (fst file) ".json") d)
                 = filter (fun fname => PyStr.endswith fname ".json") (listdir d)).
    { unfold listdir. induction d as [|[n doc] d IH]; [reflexivity|]. simpl.
      destruct (PyStr.endswith n ".json"); simpl; now rewrite IH. }
    rewrite Hl, sorted_filter.
    induction (PyStr.sorted (listdir d)) as [|f l IH]; [reflexivity|].
    cbn [flat_map filter]. destruct (PyStr.endswith f ".json") eqn:E.
    - cbn [flat_map]. rewrite E, load_filter by exact E. cbn [negb].
      now rewrite IH.
    - cbn [negb app]. exact IH. }
  now rewrite H.
Qed.

(** The keys of the timing map are the speaker labels of the record,
    each one once, in the order of their first occurrence. *)
Theorem timing_keys_first_seen (l : list entry) :
  PyDict.keys (aggregate l) = first_seen (map speaker_of l) /\
  NoDup (PyDict.keys (aggregate l)) /\
  (forall speaker,
     In speaker (PyDict.keys (aggregate l))
     <-> exists e, In e l /\ speaker_of e = speaker).
Proof.
  rewrite aggregate_keys. unfold first_seen.
  destruct (fold_see (map speaker_of l) [] (NoDup_nil _)) as [H1 H2].
  repeat split.
  - exact H1.
  - intros H. apply H2 in H. destruct H as [[]|H].
    apply in_map_iff in H. destruct H as (e & He & Hin). now exists e.
  - intros (e & Hin & He). apply H2. right. apply in_map_iff. now exists e.
Qed.

(** Read back line by line, the conversation text of a record that is
    not empty gives the lines of the record followed by one empty
    piece, provided no speaker label and no text holds a newline; the
    text of the empty record is a lone newline. *)
Theorem conversation_lines_round_trip (l : list entry) :
  Forall (fun e => PyStr.contains nl (line_of e) = false) l ->
  PyStr.split nl (serialize l)
  = match l with
    | [] => [""; ""]
    | _ => (map line_of l ++ [""])%list
    end.
Proof.
  intros Hl. destruct l as [|e l]; [reflexivity|].
  rewrite serialize_eq, concat_terminated by discriminate.
  apply (split_terminated "010").
  apply Forall_forall. intros x Hx. apply in_map_iff in Hx.
  destruct Hx as (e' & <- & He'). rewrite Forall_forall in Hl. now apply Hl.
Qed.

Lemma conversation_lines_round_trip_witness :
  PyStr.split nl
    (serialize [Entry (Some "SPEAKER_00") (Some "hello") None None;
                Entry None (Some " hi there ") None None])
  = ["SPEAKER_00: hello"; "UNKNOWN: hi there"; ""].
Proof.
  apply (conversation_lines_round_trip
           [Entry (Some "SPEAKER_00") (Some "hello") None None;
            Entry None (Some " hi there ") None None]).
  repeat constructor.
Defined.

(** The conversation text is blank exactly for the record without
    entries; [SarvamEngine.grade_call], given that text as transcript,
    then fails with [Empty transcript] whatever the scorecard and the
    reply, and for any other record it goes on to the reply. *)
Theorem blank_transcript_iff_empty_record
  (json_loads : string -> option Json.json) (l : list entry) :
  (PyStr.strip (serialize l) = "" <-> l = []) /\
  (l = [] ->
   forall scorecard_items completion,
     SarvamEngine.grade_call json_loads (serialize l) scorecard_items completion
     = SarvamEngine.Failed (SarvamEngine.Message "Empty transcript")) /\
  (l <> [] ->
   forall item items response_text,
     SarvamEngine.grade_call json_loads (serialize l) (item :: items)
       (inr response_text)
     = match (grading_result <-
                SarvamEngine.parse_response json_loads response_text ;;
              SarvamEngine.build_result grading_result) with
       | inr result => result
       | inl e => SarvamEngine.Failed (SarvamEngine.str e)
       end).
Proof.
  assert (Hb : PyStr.strip (serialize l) = "" <-> l = []).
  { rewrite strip_blank. destruct l as [|e l].
    - split; reflexivity.
    - rewrite serialize_not_blank. split; discriminate. }
  split; [exact Hb|split].
  - intros -> items completion. reflexivity.
  - intros Hne item items response_text. unfold SarvamEngine.grade_call.
    destruct (String.eqb_spec (PyStr.strip (serialize l)) "") as [E|_].
    + apply Hb in E. now elim Hne.
    + reflexivity.
Qed.

End TranscriptProperties.

(* ================================================================== *)
(** * Further properties of [split_audio] *)

Section ChunkerProperties.

Import Vocabulary Audio.
Open Scope Z_scope.

Lemma format_03d_inj (i j : nat) :
  PyStr.format_03d i = PyStr.format_03d j -> i = j.
Proof.
  intros H. pose proof (format_03d_read i) as Hi. rewrite H in Hi.
  rewrite format_03d_read in Hi. now injection Hi.
Qed.

Lemma join_inj (dir a b : string) :
  PyStr.startswith a "/" = PyStr.startswith b "/" ->
  OsPath.join dir a = OsPath.join dir b -> a = b.
Proof.
  unfold OsPath.join. intros Hs. rewrite Hs.
  destruct (PyStr.startswith b "/"); [auto|].
  destruct (String.eqb dir "" || PyStr.endswith dir "/")%bool.
  - apply append_cancel_l.
  - intros H. apply append_cancel_l in H. now apply append_cancel_l in H.
Qed.

Lemma chunk_path_inj (mkdtemp : string) (output_dir : option string)
  (audio_path : string) (i j : nat) :
  chunk_path mkdtemp output_dir audio_path i
  = chunk_path mkdtemp output_dir audio_path j -> i = j.
Proof.
  unfold chunk_path. intros H. apply join_inj in H.
  - apply append_cancel_l in H. apply append_cancel_l in H.
    apply append_cancel_r in H. now apply format_03d_inj.
  - unfold PyStr.startswith. destruct (chunk_base audio_path) as [|c b].
    + reflexivity.
    + cbn [append]. now rewrite !prefix_cons, !prefix_nil.
Qed.

(** The shape of what [split_audio] returns when it does not raise. *)
Lemma split_audio_shape (len : Z) (mkdtemp audio_path : string) (D : Z)
  (output_dir : option string) (out : outcome) :
  split_audio len mkdtemp audio_path D output_dir = inr out ->
  (out = Outcome [audio_path] []) \/
  exists n,
    chunks out = map (chunk_path mkdtemp output_dir audio_path) (seq 0 n) /\
    map export_path (written out) = chunks out.
Proof.
  unfold split_audio. destruct (len <=? D); [intros [= <-]; now left|].
  unfold range0. destruct (D =? 0); [discriminate|].
  intros [= <-]. right.
  match goal with |- context [seq 0 ?k] => exists k end.
  fold (chunk_dir mkdtemp output_dir). fold (chunk_base audio_path).
  fold (chunk_ext audio_path).
  rewrite export_loop_closed. cbn [chunks written app]. split; [reflexivity|].
  rewrite map_map. reflexivity.
Qed.

(** Whatever the length and the bound, [split_audio] returns no path
    twice and exports no two chunks to one file; every file it exports
    is among the paths it returns. *)
Theorem split_audio_paths_distinct (len : Z) (mkdtemp audio_path : string)
  (D : Z) (output_dir : option string) (out : outcome) :
  split_audio len mkdtemp audio_path D output_dir = inr out ->
  NoDup (chunks out) /\
  NoDup (map export_path (written out)) /\
  incl (map export_path (written out)) (chunks out).
Proof.
  intros H. destruct (split_audio_shape _ _ _ _ _ _ H) as [->|(n & Hc & Hw)].
  - simpl. split; [repeat constructor; simpl; tauto|].
    split; [constructor|]. intros x [].
  - rewrite Hw, Hc.
    assert (Hn : NoDup (map (chunk_path mkdtemp output_dir audio_path) (seq 0 n))).
    { apply Finite.Injective_map_NoDup; [|apply seq_NoDup].
      intros i j. apply chunk_path_inj. }
    repeat split; try exact Hn. apply incl_refl.
Qed.

Lemma split_audio_paths_distinct_witness :
  NoDup ["/tmp/x/call_chunk000.wav"; "/tmp/x/call_chunk001.wav";
         "/tmp/x/call_chunk002.wav"]%string.
Proof.
  exact (proj1 (split_audio_paths_distinct 7200001 "/tmp/x" "/data/call"
                  3600000 None _ eq_refl)).
Defined.

(** For a positive bound and a longer audio, the exported windows tile
    the audio: the first starts at 0, each next one starts where the one
    before stops, and the last stops at the end of the audio. *)
Theorem split_audio_windows_tile (len D : Z) (mkdtemp audio_path : string)
  (output_dir : option string) (out : outcome) :
  0 < D -> D < len ->
  split_audio len mkdtemp audio_path D output_dir = inr out ->
  option_map export_start (nth_error (written out) 0) = Some 0 /\
  (forall i w w',
     nth_error (written out) i = Some w ->
     nth_error (written out) (S i) = Some w' ->
     export_start w' = export_stop w) /\
  option_map export_stop
    (nth_error (written out) (List.length (written out) - 1)) = Some len.
Proof.
  intros HD Hlen H. rewrite split_audio_closed in H by assumption.
  injection H as <-. cbn [written].
  set (k := Z.to_nat (ceil_div len D)).
  assert (Hk : Z.of_nat k = ceil_div len D).
  { unfold k. rewrite Z2Nat.id; [reflexivity|]. unfold ceil_div.
    apply Z.div_pos; lia. }
  pose proof (windows_reach_end len D HD ltac:(lia)) as Hend.
  assert (Hpos : (0 < k)%nat) by nia.
  assert (Hnth : forall i, (i < k)%nat ->
            nth_error (map (chunk_window len D mkdtemp output_dir audio_path)
                         (seq 0 k)) i
            = Some (chunk_window len D mkdtemp output_dir audio_path i)).
  { intros i Hi. rewrite nth_error_map, nth_error_seq.
    destruct (Nat.ltb_spec i k); [reflexivity|lia]. }
  repeat split.
  - rewrite Hnth by lia. reflexivity.
  - intros i w w' Hw Hw'.
    assert (Hi : (S i < k)%nat).
    { assert (Hs : nth_error (map (chunk_window len D mkdtemp output_dir audio_path)
                                  (seq 0 k)) (S i) <> None) by congruence.
      apply nth_error_Some in Hs. now rewrite length_map, length_seq in Hs. }
    rewrite Hnth in Hw, Hw' by lia. injection Hw as <-. injection Hw' as <-.
    cbn [chunk_window export_start export_stop].
    pose proof (window_start_lt len D (S i) HD ltac:(lia) Hi) as Hs.
    lia.
  - rewrite length_map, length_seq. rewrite Hnth by lia.
    cbn [option_map chunk_window export_stop]. f_equal.
    replace (Z.of_nat (k - 1) + 1) with (Z.of_nat k) by lia. lia.
Qed.

Lemma split_audio_windows_tile_witness :
  option_map export_stop
    (nth_error
       [Export "/tmp/x/call_chunk000.wav" 0 3600000;
        Export "/tmp/x/call_chunk001.wav" 3600000 7200000;
        Export "/tmp/x/call_chunk002.wav" 7200000 7200001] 2)
  = Some 7200001.
Proof.
  exact (proj2 (proj2 (split_audio_windows_tile 7200001 3600000 "/tmp/x"
                         "/data/call" None _ ltac:(lia) ltac:(lia) eq_refl))).
Defined.

End ChunkerProperties.

(* ================================================================== *)
(** * Further properties of the grading parsers *)

Section GradingProperties.

Import Vocabulary Json.
Open Scope string_scope.






(** [SarvamEngine.grade_call] reports a success exactly when the
    transcript is not blank, the scorecard is not empty and the reply
    parses (whole or from a fenced block) to an object; the three
    fields are then those of the object, with their defaults.  A reply
    that parses to a list, a string, a number or [null] is a failure. *)
Theorem grade_call_success_iff (json_loads : string -> option json)
  (transcript : string) (scorecard_items : list string)
  (completion : exn + string) (grades overall_score summary : json) :
  SarvamEngine.grade_call json_loads transcript scorecard_items completion
  = SarvamEngine.Success grades overall_score summary
  <->
  PyStr.strip transcript <> "" /\ scorecard_items <> [] /\
  exists response_text d,
    completion = inr response_text /\
    SarvamEngine.parse_response json_loads response_text = inr (JDict d) /\
    grades = PyDict.get_default d "grades" (JList []) /\
    overall_score = PyDict.get_default d "overall_score" (JInt 0) /\
    summary = PyDict.get_default d "summary" (JStr "").
Proof.
  unfold SarvamEngine.grade_call. split.
  - destruct (String.eqb_spec (PyStr.strip transcript) "") as [|Ht]; [discriminate|].
    destruct scorecard_items as [|item items]; [discriminate|].
    destruct completion as [e|response_text]; [discriminate|]. cbn [bind].
    destruct (SarvamEngine.parse_response json_loads response_text) as [e|v]
      eqn:Hp; [discriminate|]. cbn [bind].
    destruct v; try discriminate. cbn. intros [= <- <- <-].
    split; [exact Ht|]. split; [discriminate|].
    exists response_text, d. repeat split; try reflexivity. exact Hp.
  - intros (Ht & Hi & response_text & d & -> & Hp & -> & -> & ->).
    apply String.eqb_neq in Ht. rewrite Ht.
    destruct scorecard_items; [now elim Hi|]. cbn [bind]. now rewrite Hp.
Qed.

End GradingProperties.

(* ================================================================== *)
(** * The scorecard of the grading prompts *)

Section ScorecardProperties.

Import Vocabulary Words Scorecard.
Open Scope string_scope.

Lemma contains_char_app (c : ascii) (a b : string) :
  PyStr.contains (String c "") (a ++ b)
  = PyStr.contains (String c "") a || PyStr.contains (String c "") b.
Proof.
  induction a as [|x a IH].
  - cbn [append PyStr.contains]. now destruct b.
  - cbn [append PyStr.contains]. rewrite !prefix_cons, !prefix_nil.
    destruct (Ascii.eqb c x); [reflexivity|exact IH].
Qed.

Lemma digits_no_newline (d : Decimal.uint) :
  PyStr.contains nl (NilEmpty.string_of_uint d) = false.
Proof. induction d; simpl; auto. Qed.

Lemma str_nat_no_newline (i : nat) : PyStr.contains nl (PyText.str_nat i) = false.
Proof.
  unfold PyText.str_nat, NilZero.string_of_uint.
  destruct (Nat.to_uint i); try apply digits_no_newline. reflexivity.
Qed.

Lemma numbered_line_one_line (idx : nat) (item : criterion) :
  one_line_criterion item = true ->
  PyStr.contains nl (numbered_line idx item) = false.
Proof.
  unfold one_line_criterion, numbered_line, nl. intros H.
  apply andb_prop in H. destruct H as [Hn Hd].
  apply negb_true_iff in Hn. apply negb_true_iff in Hd.
  rewrite !contains_char_app. fold nl. rewrite str_nat_no_newline.
  destruct (criteria item), (description item); unfold nl in *;
    try rewrite Hn; try rewrite Hd; reflexivity.
Qed.

Lemma criteria_loop_closed (items : list criterion) :
  forall idx text,
    criteria_loop idx items text
    = text ++ fold_right (fun x acc => x ++ nl ++ acc) ""
                (numbered_from idx items).
Proof.
  induction items as [|item items IH]; intros idx text; simpl.
  - now rewrite append_nil_r.
  - rewrite IH. unfold criterion_line, numbered_line.
    now rewrite !append_assoc.
Qed.

(** The criteria text of [CallAnalytics.grade_call] holds one line per
    criterion, numbered from 1 in the order given, [Unknown] standing
    for a missing name and nothing for a missing description: read back
    line by line it gives these lines followed by one empty piece,
    provided no name and no description holds a newline. *)
Theorem criteria_text_lines (scorecard_criteria : list criterion) :
  Forall (fun item => one_line_criterion item = true) scorecard_criteria ->
  PyStr.split nl (criteria_text scorecard_criteria)
  = (numbered_from 1 scorecard_criteria ++ [""])%list /\
  List.length (numbered_from 1 scorecard_criteria)
  = List.length scorecard_criteria.
Proof.
  intros Hall. split.
  - unfold criteria_text. rewrite criteria_loop_closed. cbn [append].
    apply (split_terminated "010").
    generalize 1%nat. induction Hall as [|item items Hi _ IH]; intros idx.
    + constructor.
    + simpl. constructor; [now apply numbered_line_one_line|apply IH].
  - generalize 1%nat. induction scorecard_criteria as [|item items IH];
      intros idx; simpl; [reflexivity|]. f_equal. apply IH. now inversion Hall.
Qed.

Lemma criteria_text_lines_witness :
  PyStr.split nl
    (criteria_text [Criterion (Some "Greeting") (Some "Names the company");
                    Criterion None None])
  = ["1. Greeting: Names the company"; "2. Unknown: "; ""].
Proof.
  exact (proj1 (criteria_text_lines
                  [Criterion (Some "Greeting") (Some "Names the company");
                   Criterion None None]
                  ltac:(repeat constructor))).
Defined.

Lemma split_join_char (c : ascii) (lines : list string) :
  lines <> [] ->
  Forall (fun x => PyStr.contains (String c "") x = false) lines ->
  PyStr.split (String c "") (String.concat (String c "") lines) = lines.
Proof.
  intros Hne Hall. induction Hall as [|x lines Hx Hall IH]; [now elim Hne|].
  destruct lines as [|y lines].
  - simpl. now apply split_none.
  - change (String.concat (String c "") (x :: y :: lines))
      with (x ++ String c (String.concat (String c "") (y :: lines))).
    rewrite split_first_char by assumption. f_equal. apply IH. discriminate.
Qed.

(** The scorecard text of [SarvamEngine.grade_call] holds one bullet
    per item, in the order given: read back line by line it gives the
    items behind their dashes, provided no item holds a newline (the
    call has refused an empty scorecard before). *)
Theorem scorecard_text_lines (scorecard_items : list string) :
  scorecard_items <> [] ->
  Forall (fun item => PyStr.contains nl item = false) scorecard_items ->
  PyStr.split nl (scorecard_text scorecard_items)
  = map (fun item => "- " ++ item) scorecard_items.
Proof.
  intros Hne Hall. unfold scorecard_text, PyStr.join.
  apply (split_join_char "010").
  - destruct scorecard_items; [now elim Hne|discriminate].
  - apply Forall_forall. intros x Hx. apply in_map_iff in Hx.
    destruct Hx as (item & <- & Hin). rewrite Forall_forall in Hall.
    fold nl. change ("- " ++ item) with (String "-" (String " " item)).
    cbn [PyStr.contains]. unfold nl. rewrite !prefix_cons, !prefix_nil.
    cbn. fold nl. now apply Hall.
Qed.

Lemma scorecard_text_lines_witness :
  PyStr.split nl (scorecard_text ["Agent politeness"; "Issue resolution"])
  = ["- Agent politeness"; "- Issue resolution"].
Proof.
  apply (scorecard_text_lines ["Agent politeness"; "Issue resolution"]).
  - discriminate.
  - repeat constructor.
Defined.

End ScorecardProperties.

(* ================================================================== *)
(** * The analysis of a conversation file *)

Section PathFacts.

Import Vocabulary Words.
Open Scope string_scope.

Lemma prefix_drop (p : string) :
  forall s, String.prefix p s = true -> s = p ++ PyStr.drop (String.length p) s.
Proof.
  induction p as [|a p IH]; intros s H; [reflexivity|].
  destruct s as [|b s]; [discriminate|]. rewrite prefix_cons in H.
  destruct (Ascii.eqb a b) eqn:E; [|discriminate].
  apply Ascii.eqb_eq in E. subst b. cbn [String.length PyStr.drop append].
  f_equal. now apply IH.
Qed.

Lemma before_after_first (sep s : string) :
  forall post,
    after_first sep s = Some post -> s = before_first sep s ++ sep ++ post.
Proof.
  induction s as [|c s IH]; intros post H.
  - destruct sep; [|discriminate]. simpl in H. now inversion H.
  - cbn [after_first before_first] in *.
    destruct (String.prefix sep (String c s)) eqn:Hp.
    + inversion H; subst post. now apply prefix_drop.
    + cbn [append]. f_equal. now apply IH.
Qed.

Lemma concat_nil_sep (x : string) (l : list string) :
  String.concat "" (x :: l) = x ++ String.concat "" l.
Proof. destruct l; simpl; [now rewrite append_nil_r|reflexivity]. Qed.

Lemma no_slash_app (a b : string) :
  no_slash (a ++ b) = no_slash a && no_slash b.
Proof.
  induction a as [|x a IH]; simpl; [reflexivity|].
  now rewrite IH, andb_assoc.
Qed.

(** Removing the occurrences of [old] removes a multiple of its length,
    and brings no slash in. *)
Lemma replace_shrinks (old : string) (Hold : old <> "") :
  forall n s,
    String.length s <= n ->
    (exists k, String.length (PyText.replace old "" s) + k * String.length old
               = String.length s) /\
    (no_slash s = true -> no_slash (PyText.replace old "" s) = true).
Proof.
  induction n as [|n IH]; intros s Hn;
    unfold PyText.replace, PyStr.join, PyStr.split;
    rewrite (split_go_shape old Hold); destruct (after_first old s) as [post|] eqn:Ha.
  - destruct s; [|simpl in Hn; lia]. destruct old; [now elim Hold|discriminate].
  - simpl. split; [exists 0; lia|auto].
  - pose proof (before_after_first old s post Ha) as Hs.
    assert (Hlen : String.length s
                   = String.length (before_first old s) + String.length old
                     + String.length post).
    { rewrite Hs at 1. rewrite !length_append. lia. }
    assert (Hold' : 0 < String.length old) by (destruct old; [now elim Hold|simpl; lia]).
    destruct (IH post ltac:(lia)) as [[k Hk] Hno].
    unfold PyText.replace, PyStr.join, PyStr.split in Hk, Hno.
    rewrite concat_nil_sep, length_append. cbn [append]. split.
    + exists (S k). lia.
    + intros Hsl. rewrite Hs, !no_slash_app in Hsl.
      apply andb_prop in Hsl. destruct Hsl as [H1 H2].
      apply andb_prop in H2. destruct H2 as [_ H2].
      rewrite no_slash_app, H1. now apply Hno.
  - simpl. split; [exists 0; lia|auto].
Qed.

Lemma rfind_no_slash (s : string) :
  no_slash s = true -> PyStr.rfind_succ "/" s = 0.
Proof.
  induction s as [|a s IH]; [reflexivity|]. simpl. intros H.
  apply andb_prop in H. destruct H as [Ha Hs]. rewrite (IH Hs).
  apply negb_true_iff in Ha. now rewrite Ha.
Qed.

Lemma rfind_app_no_slash (x s : string) :
  no_slash s = true ->
  PyStr.rfind_succ "/" (x ++ s) = PyStr.rfind_succ "/" x.
Proof.
  intros Hs. induction x as [|a x IH]; simpl; [now apply rfind_no_slash|].
  now rewrite IH.
Qed.

Lemma rfind_ends (x : string) :
  PyStr.rfind_succ "/" (x ++ "/") = S (String.length x).
Proof. induction x as [|a x IH]; simpl; [reflexivity|now rewrite IH]. Qed.

Lemma basename_no_slash (p : string) : no_slash (OsPath.basename p) = true.
Proof.
  unfold OsPath.basename. induction p as [|a p IH]; [reflexivity|].
  cbn [PyStr.rfind_succ]. destruct (PyStr.rfind_succ "/" p) as [|i] eqn:Hr.
  - cbn [PyStr.drop] in IH. destruct (Ascii.eqb a "/") eqn:Ha.
    + exact IH.
    + cbn [PyStr.drop no_slash]. now rewrite Ha, IH.
  - exact IH.
Qed.

Lemma take_drop (n : nat) :
  forall s, PyStr.take n s ++ PyStr.drop n s = s.
Proof.
  induction n as [|n IH]; intros [|a s]; simpl; try reflexivity.
  now rewrite IH.
Qed.


Lemma endswith_slash_cons (a : ascii) (s : string) :
  PyStr.endswith (String a s) "/"
  = match s with
    | EmptyString => Ascii.eqb a "/"
    | _ => PyStr.endswith s "/"
    end.
Proof.
  unfold PyStr.endswith. cbn [String.length]. rewrite !Nat.sub_succ, Nat.sub_0_r.
  destruct s as [|b s]; [simpl; now destruct (Ascii.eqb a "/")|].
  cbn [String.length PyStr.drop]. now rewrite Nat.sub_succ, Nat.sub_0_r.
Qed.

Lemma endswith_slash (x : string) :
  PyStr.endswith x "/" = true -> exists y, x = y ++ "/".
Proof.
  induction x as [|a x IH]; [discriminate|]. rewrite endswith_slash_cons.
  destruct x as [|b x].
  - intros H. apply Ascii.eqb_eq in H. subst a. now exists "".
  - intros H. destruct (IH H) as [y Hy]. exists (String a y). simpl. now rewrite <- Hy.
Qed.


Lemma basename_after (x name : string) :
  no_slash name = true ->
  x = "" \/ (exists y, x = y ++ "/") ->
  OsPath.basename (x ++ name) = name.
Proof.
  intros Hn [->|[y ->]]; unfold OsPath.basename.
  - simpl. now rewrite rfind_no_slash.
  - rewrite rfind_app_no_slash, rfind_ends by assumption.
    replace (S (String.length y)) with (String.length (y ++ "/"))
      by (rewrite length_append; simpl; lia).
    apply drop_append.
Qed.

Lemma join_shape (d name : string) :
  no_slash name = true ->
  exists x, OsPath.join d name = x ++ name /\ (x = "" \/ exists y, x = y ++ "/").
Proof.
  intros Hn. unfold OsPath.join, PyStr.startswith.
  destruct name as [|c name].
  - simpl. destruct (String.eqb d "" || PyStr.endswith d "/") eqn:E.
    + exists d. split; [reflexivity|]. apply orb_prop in E. destruct E as [E|E].
      * left. now apply String.eqb_eq.
      * right. now apply endswith_slash.
    + exists (d ++ "/"). rewrite append_assoc. split; [reflexivity|right; now exists d].
  - rewrite prefix_cons, prefix_nil. simpl in Hn. apply andb_prop in Hn.
    destruct Hn as [Hc _]. apply negb_true_iff in Hc. rewrite Ascii.eqb_sym, Hc.
    destruct (String.eqb d "" || PyStr.endswith d "/") eqn:E.
    + exists d. split; [reflexivity|]. apply orb_prop in E. destruct E as [E|E].
      * left. now apply String.eqb_eq.
      * right. now apply endswith_slash.
    + exists (d ++ "/"). rewrite append_assoc. split; [reflexivity|right; now exists d].
Qed.

Lemma basename_join (d name : string) :
  no_slash name = true -> OsPath.basename (OsPath.join d name) = name.
Proof.
  intros Hn. destruct (join_shape d name Hn) as (x & -> & Hx).
  now apply basename_after.
Qed.


End PathFacts.

Section AnalysisProperties.

Import Vocabulary Words Analysis.
Open Scope string_scope.

Variable complete_analysis : string -> exn + string.
Variable complete_summary : string -> exn + string.

Lemma analysis_name_other (output_dir conversation_file : string) :
  OsPath.basename (analysis_path_in output_dir conversation_file)
  <> OsPath.basename conversation_file.
Proof.
  unfold analysis_path_in, base_name_of. intros Heq.
  set (B := OsPath.basename conversation_file) in *.
  assert (Hold : "_conversation.txt" <> "") by discriminate.
  destruct (replace_shrinks "_conversation.txt" Hold (String.length B) B (le_n _))
    as [[k Hk] Hno].
  specialize (Hno (basename_no_slash conversation_file)).
  set (R := PyText.replace "_conversation.txt" "" B) in *.
  assert (Hname : no_slash (R ++ "_analysis.txt") = true)
    by (rewrite no_slash_app, Hno; reflexivity).
  rewrite (basename_join _ _ Hname) in Heq.
  apply (f_equal String.length) in Heq. rewrite length_append in Heq.
  simpl in Heq, Hk. lia.
Qed.

(** Neither [SarvamEngine.analyze_call] nor
    [CallAnalytics.analyze_transcription] ever writes over the
    conversation file it analyses, whatever the output directory, the
    name of the file and the reply of the model: the file name of the
    analysis differs from the file name of the conversation, and after
    the call the conversation file reads as it did before. *)
Theorem analysis_keeps_conversation (fs : files) (conversation_file : string)
  (output_dir : option string) (dir : string) :
  OsPath.basename (analysis_path_in dir conversation_file)
  <> OsPath.basename conversation_file /\
  read (fst (analyze_call complete_analysis fs conversation_file output_dir))
       conversation_file
  = read fs conversation_file /\
  read (fst (analyze_transcription complete_analysis fs conversation_file dir))
       conversation_file
  = read fs conversation_file.
Proof.
  assert (Hne : forall d, analysis_path_in d conversation_file
                          <> conversation_file).
  { intros d Heq. apply (analysis_name_other d conversation_file).
    now rewrite Heq. }
  split; [apply analysis_name_other|].
  unfold analyze_call, analyze_transcription.
  destruct (read fs conversation_file) as [f|transcription] eqn:Hr;
    [now split|].
  destruct (String.eqb (PyStr.strip transcription) ""); [now split|].
  destruct (complete_analysis transcription) as [e|analysis_text];
    [now split|].
  cbn [fst]. unfold read, write in *.
  rewrite !get_set_ne by apply Hne. now split.
Qed.



End AnalysisProperties.

Section AnalysisExamples.

Open Scope string_scope.



End AnalysisExamples.

(* ================================================================== *)
(** * The files a batch uploads *)

Section BatchProperties.

Import Vocabulary Words Audio Batch.
Open Scope Z_scope.

Variable audio_len : string -> exn + Z.
Variable mkdtemp : nat -> string.
Variable abspath : string -> string.

Lemma extend_decoded (g : gathered) (path : string) (len : Z) :
  audio_len path = inr len ->
  exists out,
    extend audio_len mkdtemp g path
    = inr (Gathered (all_paths g ++ chunks out) (exported g ++ written out)
             (if len <=? one_hour then tempdirs g else S (tempdirs g))) /\
    List.length (chunks out) = parts_of len /\
    (len <= one_hour -> out = Outcome [path] []).
Proof.
  intros Hl. unfold extend. rewrite Hl. cbn [bind]. unfold parts_of.
  destruct (Z.leb_spec len one_hour) as [Hs|Hs].
  - exists (Outcome [path] []). unfold split_audio.
    destruct (Z.leb_spec len one_hour) as [_|H]; [|lia].
    cbn [bind]. repeat split; reflexivity.
  - rewrite (split_audio_closed len one_hour) by (unfold one_hour in *; lia).
    exists (Outcome
              (map (chunk_path (mkdtemp (tempdirs g)) None path)
                 (seq 0 (Z.to_nat (ceil_div len one_hour))))
              (map (chunk_window len one_hour (mkdtemp (tempdirs g)) None path)
                 (seq 0 (Z.to_nat (ceil_div len one_hour))))).
    cbn [bind chunks written]. split; [reflexivity|split].
    + now rewrite length_map, length_seq.
    + lia.
Qed.

Lemma gather_app (a b : list string) :
  forall g,
    gather audio_len mkdtemp (a ++ b)%list g
    = (g' <- gather audio_len mkdtemp a g ;; gather audio_len mkdtemp b g').
Proof.
  induction a as [|p a IH]; intros g; [reflexivity|].
  cbn [app gather]. destruct (extend audio_len mkdtemp g p) as [e|g1];
    [reflexivity|]. cbn [bind]. apply IH.
Qed.

Lemma gather_count (audio_paths : list string) (lens : list Z) :
  Forall2 (fun path len => audio_len path = inr len) audio_paths lens ->
  forall g,
    exists g',
      gather audio_len mkdtemp audio_paths g = inr g' /\
      List.length (all_paths g')
      = (List.length (all_paths g) + list_sum (map parts_of lens))%nat.
Proof.
  induction 1 as [|path len audio_paths lens Hl _ IH]; intros g.
  - exists g. split; [reflexivity|]. simpl. lia.
  - destruct (extend_decoded g path len Hl) as (out & He & Hn & _).
    cbn [gather]. rewrite He. cbn [bind].
    match goal with |- context [gather _ _ _ ?g1] =>
      destruct (IH g1) as (g' & Hg & Hc) end.
    exists g'. split; [exact Hg|]. rewrite Hc. cbn [all_paths map].
    rewrite length_app, Hn. change (list_sum (?x :: ?l)) with (x + list_sum l)%nat.
    lia.
Qed.

(** A batch of files of at most one hour each is uploaded as given: the
    upload list holds the absolute path of every file, in the order of
    the call, and no chunk is written. *)
Theorem short_batch_uploaded_as_given (audio_paths : list string) :
  Forall (fun path => exists len, audio_len path = inr len /\ len <= one_hour)
    audio_paths ->
  upload_list audio_len mkdtemp abspath audio_paths
  = inr (map abspath audio_paths) /\
  gather audio_len mkdtemp audio_paths (Gathered [] [] 0)
  = inr (Gathered audio_paths [] 0).
Proof.
  intros Hall.
  assert (Hg : forall g,
             gather audio_len mkdtemp audio_paths g
             = inr (Gathered (all_paths g ++ audio_paths) (exported g)
                      (tempdirs g))).
  { induction Hall as [|path audio_paths (len & Hl & Hs) _ IH]; intros g.
    - simpl. rewrite app_nil_r. now destruct g.
    - destruct (extend_decoded g path len Hl) as (out & He & _ & Ho).
      rewrite (Ho Hs) in He. cbn [gather]. rewrite He. cbn [bind].
      rewrite IH. cbn [all_paths exported tempdirs chunks written].
      destruct (Z.leb_spec len one_hour) as [_|H]; [|lia].
      now rewrite app_nil_r, <- app_assoc. }
  unfold upload_list. rewrite Hg. split; reflexivity.
Qed.

(** When every file of the batch decodes, the upload list is built,
    and it holds one path for a file of at most one hour and one per
    started hour for a longer file. *)
Theorem upload_list_count (audio_paths : list string) (lens : list Z) :
  Forall2 (fun path len => audio_len path = inr len) audio_paths lens ->
  exists uploaded,
    upload_list audio_len mkdtemp abspath audio_paths = inr uploaded /\
    List.length uploaded = list_sum (map parts_of lens).
Proof.
  intros Hall.
  destruct (gather_count audio_paths lens Hall (Gathered [] [] 0))
    as (g' & Hg & Hc).
  unfold upload_list. rewrite Hg. cbn [bind]. eexists. split; [reflexivity|].
  now rewrite length_map, Hc.
Qed.

(** A file that does not decode stops the batch, however many files
    before it were decoded and split: the exception of the decoder is
    the outcome, and there is no upload list. *)
Theorem undecodable_file_stops_batch (before after : list string)
  (path : string) (lens : list Z) (e : exn) :
  Forall2 (fun path len => audio_len path = inr len) before lens ->
  audio_len path = inl e ->
  upload_list audio_len mkdtemp abspath (before ++ path :: after)%list = inl e.
Proof.
  intros Hall He. unfold upload_list. rewrite gather_app.
  destruct (gather_count before lens Hall (Gathered [] [] 0)) as (g' & Hg & _).
  rewrite Hg. cbn [bind gather]. unfold extend. rewrite He. reflexivity.
Qed.

End BatchProperties.

Section BatchExamples.

Open Scope string_scope.
Open Scope Z_scope.

Lemma short_batch_uploaded_as_given_witness :
  Batch.upload_list (fun _ => inr 1000) (fun _ => "/tmp/sarvam_chunks_0")
    (fun p => "/srv/" ++ p) ["a.wav"; "b.mp3"]
  = inr ["/srv/a.wav"; "/srv/b.mp3"].
Proof.
  apply (short_batch_uploaded_as_given (fun _ => inr 1000)
           (fun _ => "/tmp/sarvam_chunks_0") (fun p => "/srv/" ++ p)
           ["a.wav"; "b.mp3"]).
  repeat (apply Forall_cons;
          [exists 1000; split; [reflexivity|unfold Batch.one_hour; lia]|]).
  apply Forall_nil.
Defined.

Lemma upload_list_count_witness :
  exists uploaded,
    Batch.upload_list
      (fun p => inr (if String.eqb p "long.wav" then 7200001 else 1000))
      (fun _ => "/tmp/sarvam_chunks_0") (fun p => p) ["a.wav"; "long.wav"]
    = inr uploaded /\
    List.length uploaded = 4%nat.
Proof.
  apply (upload_list_count
           (fun p => inr (if String.eqb p "long.wav" then 7200001 else 1000))
           (fun _ => "/tmp/sarvam_chunks_0") (fun p => p)
           ["a.wav"; "long.wav"] [1000; 7200001]).
  repeat constructor.
Defined.

Lemma undecodable_file_stops_batch_witness :
  Batch.upload_list
    (fun p => if String.eqb p "bad.bin" then inl ProviderError else inr 1000)
    (fun _ => "/tmp/sarvam_chunks_0") (fun p => p)
    (["a.wav"] ++ "bad.bin" :: ["b.wav"])%list
  = inl ProviderError.
Proof.
  apply (undecodable_file_stops_batch
           (fun p => if String.eqb p "bad.bin" then inl ProviderError else inr 1000)
           (fun _ => "/tmp/sarvam_chunks_0") (fun p => p)
           ["a.wav"] ["b.wav"] "bad.bin" [1000] ProviderError).
  - repeat constructor.
  - reflexivity.
Defined.

End BatchExamples.
